(** * ipxe/auto.go: the boot-script decision pipeline

    A shallow embedding of [HandlerFunc], [customScriptFound],
    [serveBootScript], [defaultScript] and [customScript] of package
    [ipxe], followed by the properties of the pipeline.

    The handler is effectful: it writes a status and a body to the
    response writer, logs, counts metrics, annotates a trace span and
    calls the hardware finder.  Each of these is recorded, in program
    order, as an [event]; a handler run is the list of its events. *)

From Stdlib Require Import List String Ascii ZArith NArith Bool Lia.
From Stdlib Require Import Init.Byte DecimalString.
Import ListNotations.

Local Open Scope string_scope.
Local Open Scope list_scope.

(** String concatenation, kept apart from list append. *)
Local Notation "a +++ b" := (String.append a b)
  (at level 60, right associativity).

(** ** Go values *)

(** A Go [error] value, identified with its message. *)
Definition error := string.

(** The pair [(value, err)] a fallible Go call returns. *)
Inductive Result (A : Type) : Type :=
| Ok (a : A)
| Err (e : error).
Arguments Ok {A} a.
Arguments Err {A} e.

(** [errors.Wrap(err, msg)]: the message [msg: err]. *)
Definition errors_Wrap (err : error) (msg : string) : error :=
  msg +++ ": " +++ err.

(** [net.IP] and [net.HardwareAddr] are byte slices; the nil slice is
    the empty list. *)
Definition IP := list byte.
Definition HardwareAddr := list byte.

Definition hexDigit : string := "0123456789abcdef".

Definition hexDigitAt (n : N) : ascii :=
  match String.get (N.to_nat n) hexDigit with
  | Some c => c
  | None => "0"%char
  end.

(** The loop of [net.HardwareAddr.String]: a colon before every byte
    but the first, then the two hex digits [b>>4] and [b&0xF]. *)
Fixpoint HardwareAddr_String_from (first : bool) (a : list byte) : string :=
  match a with
  | [] => ""
  | b :: rest =>
      (if first then "" else ":") +++
      String (hexDigitAt (N.shiftr (Byte.to_N b) 4))
        (String (hexDigitAt (N.land (Byte.to_N b) 15))
           (HardwareAddr_String_from false rest))
  end.

Definition HardwareAddr_String (a : HardwareAddr) : string :=
  HardwareAddr_String_from true a.

(** [*url.URL], as far as this file reads it: the [Scheme] field, and
    the text [String()] gives when a template prints the value. *)
Record URL : Type := { Scheme : string; URL_String : string }.

(** ** The collaborators of package [client] *)

(** [client.Hardware]: the per-interface queries of a hardware record.
    The interface is declared in package [client]; the VLAN identifier
    is an integer, as section 6 of the spec gives it. *)
Record client_Hardware : Type := {
  HardwareAllowPXE : HardwareAddr -> bool;
  HardwareArch : HardwareAddr -> string;
  HardwareFacilityCode : string;
  GetVLANID : HardwareAddr -> Z;
  IPXEURL : HardwareAddr -> string;
  IPXEScript : HardwareAddr -> string
}.

(** [*client.Instance]. *)
Record client_Instance : Type := { ID : string }.

(** [client.Discoverer]; a nil interface value is [None] where the code
    allows for one.  [Hardware()] is taken to answer a usable value;
    [Instance()] returns a pointer that may be nil. *)
Record client_Discoverer : Type := {
  GetMAC : IP -> HardwareAddr;
  Hardware : client_Hardware;
  Instance : option client_Instance
}.

(** ** Template data *)

Module Hook.
Record t : Type := {
  Arch : string;
  Console : string;
  DownloadURL : string;
  ExtraKernelParams : list string;
  Facility : string;
  HWAddr : string;
  SyslogHost : string;
  TinkerbellTLS : bool;
  TinkGRPCAuthority : string;
  VLANID : Z;
  WorkerID : string;
  TraceID : string
}.
End Hook.

Module Custom.
Record t : Type := {
  Chain : option URL;
  Script : string
}.
End Custom.

(** The two named templates of the package. *)
Inductive Template : Type := HookScript | CustomScript.

(** The first argument of [GenerateTemplate]. *)
Inductive TemplateData : Type :=
| DataHook (d : Hook.t)
| DataCustom (d : Custom.t).

(** ** What the file takes from outside *)

(** Functions of Go's standard library the handler calls.  Their text
    is not part of the package; every property below holds whatever
    they compute. *)
Class GoLib : Type := {
  path_Base : string -> string;
  net_SplitHostPort : string -> Result (string * string);
  net_ParseIP : string -> IP;
  IP_String : IP -> string;
  url_Parse : string -> Result URL;
  (** the verb [%q] of [errors.Errorf] *)
  fmt_q : string -> string
}.

(** Modelled from the spec: [GenerateTemplate] and the template texts
    are declared elsewhere in package [ipxe]; section 4.3 gives the
    contract [render(context, templateName) -> (text, error)], a
    function of the context and of the template and of nothing else. *)
Class Renderer : Type := {
  GenerateTemplate : TemplateData -> Template -> Result string
}.

(** ** The request and its surroundings *)

(** The span carried by the request context. *)
Record Span : Type := {
  IsSampled : bool;
  SpanTraceID : string
}.

Record Request : Type := {
  URL_Path : string;
  RemoteAddr : string;
  Context : Span
}.

(** [http.ResponseWriter]: whether [Write] of the given bytes fails. *)
Record ResponseWriter : Type := {
  Write_err : string -> option error
}.

Module Handler.
Record t : Type := {
  (** [Finder.ByIP]: an error, or a (possibly nil) discoverer *)
  Finder_ByIP : IP -> Result (option client_Discoverer);
  OSIEURL : string;
  ExtraKernelParams : list string;
  PublicSyslogFQDN : string;
  TinkServerTLS : bool;
  TinkServerGRPCAddr : string
}.
End Handler.

(** ** Events *)

Definition Labels := list (string * string).

Inductive event : Type :=
| LogInfo (msg : string) (kv : list (string * string))
| LogError (err : error) (msg : string) (kv : list (string * string))
| MetricInc (metric : string) (l : Labels)
| MetricDec (metric : string) (l : Labels)
| TimerStart (metric : string) (l : Labels)
| TimerObserve (metric : string) (l : Labels)
| FinderByIP (ip : IP)
| WriteHeader (code : Z)
| Write (body : string)
| SpanSetAttributes (key value : string)
| SpanSetStatusError (description : string)
| Render (data : TemplateData) (tpl : Template)
| Panic (msg : string).

Definition StatusOK : Z := 200%Z.
Definition StatusNotFound : Z := 404%Z.
Definition StatusInternalServerError : Z := 500%Z.

(** ** Handler actions

    An action yields the events it performed and, unless the enclosing
    function returned (or panicked) inside it, a value. *)
Definition Act (A : Type) : Type := (list event * option A)%type.

Definition ret {A} (a : A) : Act A := ([], Some a).

Definition bind {A B} (m : Act A) (k : A -> Act B) : Act B :=
  match m with
  | (tr, Some a) => let '(tr', b) := k a in (tr ++ tr', b)
  | (tr, None) => (tr, None)
  end.

Definition emit (e : event) : Act unit := ([e], Some tt).

(** A [return] statement of the enclosing function. *)
Definition stop {A} : Act A := ([], None).

(** A method call on a nil interface value. *)
Definition nilPanic {A} : Act A :=
  ([Panic "invalid memory address or nil pointer dereference"], None).

(** [defer]: the deferred events run when the body is left, on every
    path. *)
Definition deferring {A} (deferred : list event) (body : Act A) : Act A :=
  (fst body ++ deferred, snd body).

Definition run {A} (m : Act A) : list event := fst m.

Notation "x <- m ;; k" := (bind m (fun x => k))
  (at level 61, m at next level, right associativity).
Notation "m ;; k" := (bind m (fun _ => k))
  (at level 61, right associativity).

(** ** The code of [ipxe/auto.go] *)

Section Auto.
Context {L : GoLib} {R : Renderer}.

Definition labels : Labels := [("from", "http"); ("op", "file")].

(** [customScriptFound], lines 80-87. *)
Definition customScriptFound (hw : option client_Discoverer) (ip : string)
  : bool :=
  match hw with
  | None => false
  | Some hw =>
      let mac := GetMAC hw (net_ParseIP ip) in
      negb (IPXEURL (Hardware hw) mac =? "")
      || negb (IPXEScript (Hardware hw) mac =? "")
  end.

(** The value [auto] that [defaultScript] builds, lines 139-164.  The
    field [TraceID] keeps its zero value unless the span is sampled. *)
Definition bootContext (h : Handler.t) (span : Span)
    (hw : client_Discoverer) (ip : string) : Hook.t :=
  let mac := GetMAC hw (net_ParseIP ip) in
  let arch := HardwareArch (Hardware hw) mac in
  let arch := if arch =? "" then "x86_64" else arch in
  let wID := HardwareAddr_String mac in
  let wID :=
    match Instance hw with
    | Some i => if negb (ID i =? "") then ID i else wID
    | None => wID
    end in
  {| Hook.Arch := arch;
     Hook.Console := "";
     Hook.DownloadURL := Handler.OSIEURL h;
     Hook.ExtraKernelParams := Handler.ExtraKernelParams h;
     Hook.Facility := HardwareFacilityCode (Hardware hw);
     Hook.HWAddr := HardwareAddr_String mac;
     Hook.SyslogHost := Handler.PublicSyslogFQDN h;
     Hook.TinkerbellTLS := Handler.TinkServerTLS h;
     Hook.TinkGRPCAuthority := Handler.TinkServerGRPCAddr h;
     Hook.VLANID := GetVLANID (Hardware hw) mac;
     Hook.WorkerID := wID;
     Hook.TraceID := if IsSampled span then SpanTraceID span else "" |}.

(** [defaultScript], lines 138-167. *)
Definition defaultScript (h : Handler.t) (span : Span)
    (hw : option client_Discoverer) (ip : string) : Act (Result string) :=
  match hw with
  | None => nilPanic
  | Some hw =>
      let auto := bootContext h span hw ip in
      emit (Render (DataHook auto) HookScript) ;;
      ret (GenerateTemplate (DataHook auto) HookScript)
  end.

(** [customScript], lines 170-189. *)
Definition customScript (h : Handler.t) (hw : option client_Discoverer)
    (ip : string) : Act (Result string) :=
  match hw with
  | None => nilPanic
  | Some hw =>
      let mac := GetMAC hw (net_ParseIP ip) in
      let chain := IPXEURL (Hardware hw) mac in
      if negb (chain =? "") then
        match url_Parse chain with
        | Err err => ret (Err (errors_Wrap err "invalid custom chain URL"))
        | Ok u =>
            if negb (Scheme u =? "http") && negb (Scheme u =? "https") then
              ret (Err ("invalid URL scheme: " +++ Scheme u))
            else
              let c := {| Custom.Chain := Some u; Custom.Script := "" |} in
              emit (Render (DataCustom c) CustomScript) ;;
              ret (GenerateTemplate (DataCustom c) CustomScript)
        end
      else
        let script := IPXEScript (Hardware hw) mac in
        if negb (script =? "") then
          let c := {| Custom.Chain := None; Custom.Script := script |} in
          emit (Render (DataCustom c) CustomScript) ;;
          ret (GenerateTemplate (DataCustom c) CustomScript)
        else
          ret (Err "no custom script or chain defined in the hardware data")
  end.

(** Lines 94-96: the name the [switch] of [serveBootScript] sees. *)
Definition effectiveName (hw : option client_Discoverer) (ip name : string)
  : string :=
  if customScriptFound hw ip then "custom.ipxe" else name.

(** The error arms of the [switch], lines 101-106 and 112-117. *)
Definition scriptError (err : error) (msg name : string) : Act string :=
  emit (WriteHeader StatusInternalServerError) ;;
  let err := errors_Wrap err msg in
  emit (LogError err "error" [("script", name)]) ;;
  emit (SpanSetStatusError err) ;;
  stop.

(** The arms of [switch name], line 97; [CaseOther] is [default:]. *)
Inductive Arm : Type := CaseAuto | CaseCustom | CaseOther.

Definition switchArm (name : string) : Arm :=
  if name =? "auto.ipxe" then CaseAuto
  else if name =? "custom.ipxe" then CaseCustom
  else CaseOther.

(** Lines 97-135 of [serveBootScript]: the [switch] on the effective
    name and the write of the script. *)
Definition dispatch (h : Handler.t) (span : Span) (w : ResponseWriter)
    (name ip : string) (hw : option client_Discoverer) : Act unit :=
  script <-
    match switchArm name with
    | CaseAuto =>
        r <- defaultScript h span hw ip ;;
        match r with
        | Err err => scriptError err "error with default ipxe script" name
        | Ok s => ret s
        end
    | CaseCustom =>
        r <- customScript h hw ip ;;
        match r with
        | Err err => scriptError err "error with custom ipxe script" name
        | Ok cs => ret cs
        end
    | CaseOther =>
        emit (WriteHeader StatusNotFound) ;;
        let err := "boot script " +++ fmt_q name +++ " not found" in
        emit (LogError err "error" [("script", name)]) ;;
        emit (SpanSetStatusError err) ;;
        stop
    end ;;
  emit (SpanSetAttributes "ipxe-script" script) ;;
  emit (Write script) ;;
  match Write_err w script with
  | Some err =>
      emit (LogError (errors_Wrap err "unable to write boot script")
              "unable to write boot script" [("script", name)]) ;;
      emit (SpanSetStatusError err) ;;
      stop
  | None => ret tt
  end.

(** [serveBootScript], lines 89-136. *)
Definition serveBootScript (h : Handler.t) (ctx : Span) (w : ResponseWriter)
    (name ip : string) (hw : option client_Discoverer) : Act unit :=
  let span := ctx in
  emit (SpanSetAttributes "boots.script_name" name) ;;
  dispatch h span w (effectiveName hw ip name) ip hw.

(** The function [HandlerFunc] returns, lines 32-77. *)
Definition HandlerFunc (h : Handler.t) (w : ResponseWriter) (r : Request)
  : Act unit :=
  if negb (path_Base (URL_Path r) =? "auto.ipxe") then
    emit (LogInfo "not found" [("path", URL_Path r)]) ;;
    emit (WriteHeader StatusNotFound) ;;
    stop
  else
    emit (MetricInc "JobsTotal" labels) ;;
    emit (MetricInc "JobsInProgress" labels) ;;
    emit (TimerStart "JobDuration" labels) ;;
    deferring
      [TimerObserve "JobDuration" labels; MetricDec "JobsInProgress" labels]
      match net_SplitHostPort (RemoteAddr r) with
      | Err err =>
          emit (WriteHeader StatusInternalServerError) ;;
          emit (LogError (errors_Wrap err "splitting host:ip")
                  "error parsing client address"
                  [("client", RemoteAddr r)]) ;;
          stop
      | Ok (host, _) =>
          let ip := net_ParseIP host in
          let ctx := Context r in
          emit (FinderByIP ip) ;;
          match Handler.Finder_ByIP h ip with
          | Err err =>
              emit (WriteHeader StatusNotFound) ;;
              emit (LogError err "no job found for client address"
                      [("client", RemoteAddr r)]) ;;
              stop
          | Ok None => nilPanic
          | Ok (Some hw) =>
              if negb (HardwareAllowPXE (Hardware hw) (GetMAC hw ip)) then
                emit (WriteHeader StatusNotFound) ;;
                emit (LogInfo
                        "the hardware data for this machine, or lack there of, does not allow it to pxe; allow_pxe: false"
                        [("client", RemoteAddr r)]) ;;
                stop
              else
                serveBootScript h ctx w (path_Base (URL_Path r))
                  (IP_String ip) (Some hw)
          end
      end.

End Auto.

(** ** What a run shows *)

(** The status line of the response: the first [WriteHeader], or 200
    when the body is written, or the handler returns, without one.  A
    panic before that leaves the request without a response. *)
Fixpoint statusCode (tr : list event) : option Z :=
  match tr with
  | [] => Some StatusOK
  | WriteHeader c :: _ => Some c
  | Write _ :: _ => Some StatusOK
  | Panic _ :: _ => None
  | _ :: tr => statusCode tr
  end.

(** The bodies handed to [w.Write], in order. *)
Fixpoint written (tr : list event) : list string :=
  match tr with
  | [] => []
  | Write b :: tr => b :: written tr
  | _ :: tr => written tr
  end.

(** The calls of [GenerateTemplate]. *)
Fixpoint rendered (tr : list event) : list (TemplateData * Template) :=
  match tr with
  | [] => []
  | Render d t :: tr => (d, t) :: rendered tr
  | _ :: tr => rendered tr
  end.

(** The addresses [Finder.ByIP] was asked about. *)
Fixpoint lookups (tr : list event) : list IP :=
  match tr with
  | [] => []
  | FinderByIP ip :: tr => ip :: lookups tr
  | _ :: tr => lookups tr
  end.

Definition isMetric (e : event) : bool :=
  match e with
  | MetricInc _ _ | MetricDec _ _ | TimerStart _ _ | TimerObserve _ _ => true
  | _ => false
  end.

(** The metric events of a run. *)
Definition metricEvents (tr : list event) : list event := filter isMetric tr.

(** Whether [serveBootScript] was entered: its first act is to set the
    span attribute [boots.script_name]. *)
Definition selects (e : event) : bool :=
  match e with
  | SpanSetAttributes k _ => k =? "boots.script_name"
  | _ => false
  end.

Definition selected (tr : list event) : list event := filter selects tr.

(** The events of a run that follow the entry into [serveBootScript]. *)
Fixpoint afterSelect (tr : list event) : list event :=
  match tr with
  | [] => []
  | e :: tr => if selects e then tr else afterSelect tr
  end.

(** The codes given to [w.WriteHeader], in order. *)
Fixpoint headers (tr : list event) : list Z :=
  match tr with
  | [] => []
  | WriteHeader c :: tr => c :: headers tr
  | _ :: tr => headers tr
  end.

Definition isLog (e : event) : bool :=
  match e with
  | LogInfo _ _ | LogError _ _ _ => true
  | _ => false
  end.

(** The log entries of a run. *)
Definition logs (tr : list event) : list event := filter isLog tr.

(** The descriptions given to [span.SetStatus(codes.Error, _)]. *)
Fixpoint spanErrors (tr : list event) : list string :=
  match tr with
  | [] => []
  | SpanSetStatusError d :: tr => d :: spanErrors tr
  | _ :: tr => spanErrors tr
  end.

(** The values of the span attribute [ipxe-script]. *)
Fixpoint tracedScripts (tr : list event) : list string :=
  match tr with
  | [] => []
  | SpanSetAttributes k v :: tr =>
      if k =? "ipxe-script" then v :: tracedScripts tr else tracedScripts tr
  | _ :: tr => tracedScripts tr
  end.

Definition isPanic (e : event) : bool :=
  match e with
  | Panic _ => true
  | _ => false
  end.

(** Whether the run ended in a panic. *)
Definition panicked (tr : list event) : bool := existsb isPanic tr.

(** ** Go's standard library, for the worked scenarios

    The properties below are proved for every [GoLib].  To run the
    handler on concrete requests the scenarios need one: [path.Base] and
    [net.SplitHostPort] follow the library's code; [net.ParseIP],
    [net.IP.String], [url.Parse] and [%q] are given on the inputs the
    scenarios use (see each definition). *)
Module GoStd.

Definition len (s : string) : Z := Z.of_nat (String.length s).

(** [s[i:j]]. *)
Definition slice (s : string) (i j : Z) : string :=
  substring (Z.to_nat i) (Z.to_nat (j - i)) s.

(** [s[i]], for [0 <= i < len(s)]. *)
Definition at_ (s : string) (i : Z) : ascii :=
  match String.get (Z.to_nat i) s with
  | Some c => c
  | None => Ascii.zero
  end.

(** [bytealg.IndexByteString]: the first index of [c], or -1. *)
Fixpoint IndexByteString (s : string) (c : ascii) : Z :=
  match s with
  | EmptyString => (-1)%Z
  | String a rest =>
      if Ascii.eqb a c then 0%Z
      else let i := IndexByteString rest c in
           if (i <? 0)%Z then (-1)%Z else (i + 1)%Z
  end.

(** [bytealg.LastIndexByteString]: the last index of [c], or -1. *)
Fixpoint LastIndexByteString (s : string) (c : ascii) : Z :=
  match s with
  | EmptyString => (-1)%Z
  | String a rest =>
      let i := LastIndexByteString rest c in
      if (0 <=? i)%Z then (i + 1)%Z
      else if Ascii.eqb a c then 0%Z else (-1)%Z
  end.

(** The loop of [path.Base] that strips trailing slashes. *)
Fixpoint stripTrailingSlashes (s : string) : string :=
  match s with
  | EmptyString => EmptyString
  | String a rest =>
      let rest' := stripTrailingSlashes rest in
      if Ascii.eqb a "/" && (rest' =? "") then EmptyString
      else String a rest'
  end.

(** [path.Base]. *)
Definition Base (path : string) : string :=
  if path =? "" then "."
  else
    let path := stripTrailingSlashes path in
    let i := LastIndexByteString path "/" in
    let path := if (0 <=? i)%Z then slice path (i + 1) (len path) else path in
    if path =? "" then "/" else path.

(** The message of a [net.AddrError]. *)
Definition addrErr {A} (addr why : string) : Result A :=
  Err ("address " +++ addr +++ ": " +++ why).

Definition missingPort : string := "missing port in address".
Definition tooManyColons : string := "too many colons in address".

(** [net.SplitHostPort]. *)
Definition SplitHostPort (hostport : string) : Result (string * string) :=
  let i := LastIndexByteString hostport ":" in
  if (i <? 0)%Z then addrErr hostport missingPort
  else
    let bracketed :=
      if Ascii.eqb (at_ hostport 0) "[" then
        let end_ := IndexByteString hostport "]" in
        if (end_ <? 0)%Z then addrErr hostport "missing ']' in address"
        else if (end_ + 1 =? len hostport)%Z then addrErr hostport missingPort
        else if (end_ + 1 =? i)%Z then
          Ok (slice hostport 1 end_, 1%Z, (end_ + 1)%Z)
        else if Ascii.eqb (at_ hostport (end_ + 1)) ":" then
          addrErr hostport tooManyColons
        else addrErr hostport missingPort
      else
        let host := slice hostport 0 i in
        if (0 <=? IndexByteString host ":")%Z then
          addrErr hostport tooManyColons
        else Ok (host, 0%Z, 0%Z) in
    match bracketed with
    | Err e => Err e
    | Ok (host, j, k) =>
        if (0 <=? IndexByteString (slice hostport j (len hostport)) "[")%Z then
          addrErr hostport "unexpected '[' in address"
        else if (0 <=? IndexByteString (slice hostport k (len hostport)) "]")%Z
        then addrErr hostport "unexpected ']' in address"
        else Ok (host, slice hostport (i + 1) (len hostport))
    end.

Definition isDigit (c : ascii) : bool :=
  (48 <=? nat_of_ascii c)%nat && (nat_of_ascii c <=? 57)%nat.

(** [dtoi]: the decimal number at the head of [s], the count of its
    digits, and whether there was one below [big]. *)
Fixpoint dtoi_from (s : string) (n : Z) (i : Z) : Z * Z * bool :=
  match s with
  | String c rest =>
      if isDigit c then
        let n := (n * 10 + (Z.of_nat (nat_of_ascii c) - 48))%Z in
        if (16777215 <=? n)%Z then (16777215%Z, i, false)
        else dtoi_from rest n (i + 1)%Z
      else (n, i, negb (i =? 0)%Z)
  | EmptyString => (n, i, negb (i =? 0)%Z)
  end.

Definition dtoi (s : string) : Z * Z * bool :=
  match dtoi_from s 0 0 with
  | (n, i, ok) => if ok then (n, i, true) else
                    if (i =? 0)%Z then (0%Z, 0%Z, false) else (n, i, false)
  end.

Definition byte_of_Z (n : Z) : byte :=
  match Byte.of_N (Z.to_N n) with
  | Some b => b
  | None => x00
  end.

(** The four rounds of [parseIPv4]: an octet, preceded by a dot from
    the second round on, at most 255 and without a leading zero. *)
Fixpoint parseIPv4_octets (rounds : nat) (first : bool) (s : string)
  : option (list byte) :=
  match rounds with
  | O => if s =? "" then Some [] else None
  | S rounds =>
      if s =? "" then None
      else
        let afterDot :=
          if first then Some s
          else if Ascii.eqb (at_ s 0) "." then Some (slice s 1 (len s))
          else None in
        match afterDot with
        | None => None
        | Some s =>
            match dtoi s with
            | (n, c, ok) =>
                if negb ok || (255 <? n)%Z then None
                else if (1 <? c)%Z && Ascii.eqb (at_ s 0) "0" then None
                else
                  match parseIPv4_octets rounds false (slice s c (len s)) with
                  | Some p => Some (byte_of_Z n :: p)
                  | None => None
                  end
            end
        end
  end.

Definition v4InV6Prefix : list byte :=
  [x00; x00; x00; x00; x00; x00; x00; x00; x00; x00; xff; xff].

(** [parseIPv4]: the 16-byte form [net.IPv4] builds, or nil. *)
Definition parseIPv4 (s : string) : IP :=
  match parseIPv4_octets 4 true s with
  | Some p => v4InV6Prefix ++ p
  | None => []
  end.

(** [net.ParseIP] on text whose first separator is a dot, and on text
    without separator.  Text whose first separator is a colon is
    answered nil: IPv6 text is not parsed here, and the scenarios use
    one such host only, a zone-qualified address, which [net.ParseIP]
    answers nil as well. *)
Fixpoint ParseIP_scan (rest whole : string) : IP :=
  match rest with
  | EmptyString => []
  | String c rest =>
      if Ascii.eqb c "." then parseIPv4 whole
      else if Ascii.eqb c ":" then []
      else ParseIP_scan rest whole
  end.

Definition ParseIP (s : string) : IP := ParseIP_scan s s.

Definition itoa (n : N) : string :=
  DecimalString.NilZero.string_of_uint (N.to_uint n).

(** [net.IP.String] on the nil address and on an IPv4 address in its
    16-byte form; other values do not occur in the scenarios and are
    printed as [?]. *)
Definition IPString (ip : IP) : string :=
  match ip with
  | [] => "<nil>"
  | [x00; x00; x00; x00; x00; x00; x00; x00; x00; x00; xff; xff; a; b; c; d] =>
      itoa (Byte.to_N a) +++ "." +++ itoa (Byte.to_N b) +++ "." +++
      itoa (Byte.to_N c) +++ "." +++ itoa (Byte.to_N d)
  | _ => "?"
  end.

Definition isLetter (c : ascii) : bool :=
  let n := nat_of_ascii c in
  ((97 <=? n) && (n <=? 122) || (65 <=? n) && (n <=? 90))%nat.

Definition isSchemeMark (c : ascii) : bool :=
  isDigit c || Ascii.eqb c "+" || Ascii.eqb c "-" || Ascii.eqb c ".".

(** [getScheme] of package [net/url] at position [i] of [rawURL]. *)
Fixpoint getScheme_from (rest rawURL : string) (i : Z)
  : Result (string * string) :=
  match rest with
  | EmptyString => Ok ("", rawURL)
  | String c rest =>
      if isLetter c then getScheme_from rest rawURL (i + 1)%Z
      else if isSchemeMark c then
        if (i =? 0)%Z then Ok ("", rawURL)
        else getScheme_from rest rawURL (i + 1)%Z
      else if Ascii.eqb c ":" then
        if (i =? 0)%Z then Err "missing protocol scheme"
        else Ok (slice rawURL 0 i, slice rawURL (i + 1) (len rawURL))
      else Ok ("", rawURL)
  end.

Definition toLowerChar (c : ascii) : ascii :=
  let n := nat_of_ascii c in
  if ((65 <=? n) && (n <=? 90))%nat then ascii_of_nat (n + 32) else c.

Fixpoint ToLower (s : string) : string :=
  match s with
  | EmptyString => EmptyString
  | String c rest => String (toLowerChar c) (ToLower rest)
  end.

Definition dquote : string := String (ascii_of_nat 34) EmptyString.

(** [strconv.Quote], the verb [%q], on text without quote, backslash or
    control characters: the text between double quotes. *)
Definition Quote (s : string) : string := dquote +++ s +++ dquote.

(** [url.Parse] as far as the scheme goes: the scheme is split off by
    [getScheme] and lower-cased.  The later stages of [url.Parse]
    (authority, escapes) are not run; the scenarios use URLs that pass
    them. *)
Definition Parse (rawURL : string) : Result URL :=
  match getScheme_from rawURL rawURL 0 with
  | Err e =>
      Err ("parse " +++ Quote rawURL +++ ": " +++ e)
  | Ok (scheme, rest) =>
      let scheme := ToLower scheme in
      Ok {| Scheme := scheme;
            URL_String := if scheme =? "" then rawURL
                          else scheme +++ ":" +++ rest |}
  end.

End GoStd.

#[export] Instance goStd : GoLib := {|
  path_Base := GoStd.Base;
  net_SplitHostPort := GoStd.SplitHostPort;
  net_ParseIP := GoStd.ParseIP;
  IP_String := GoStd.IPString;
  url_Parse := GoStd.Parse;
  fmt_q := GoStd.Quote
|}.

(** ** The renderer and the inventory, after the spec *)

Module Spec.

(** Modelled from the spec: the rendering of the custom template, which
    is declared outside [auto.go].  Section 4.2: without a chain URL the
    literal script body is used verbatim; section 8: with one, the
    output embeds that exact URL (between texts the spec leaves open). *)
Definition renderCustom (chainPrefix chainSuffix : string) (c : Custom.t)
  : Result string :=
  match Custom.Chain c with
  | Some u => Ok (chainPrefix +++ URL_String u +++ chainSuffix)
  | None => Ok (Custom.Script c)
  end.

(** Modelled from the spec: [GenerateTemplate], declared outside
    [auto.go].  Section 4.3: each template is rendered against the
    context it declares; a context that does not fit the template is a
    [RenderError].  The text of the default template is left to
    [renderHook]. *)
Definition renderer (renderHook : Hook.t -> Result string)
    (chainPrefix chainSuffix : string) : Renderer :=
  {| GenerateTemplate := fun data tpl =>
       match data, tpl with
       | DataHook d, HookScript => renderHook d
       | DataCustom c, CustomScript => renderCustom chainPrefix chainSuffix c
       | _, _ => Err "RenderError: context does not fit the template"
       end |}.

(** Modelled from the spec: one network interface of a hardware record
    (section 3), as the in-memory adapter of section 9 holds it. *)
Record Interface : Type := {
  mac : HardwareAddr;
  address : IP;
  allowNetboot : bool;
  architecture : string;
  vlanID : Z;
  customChainURL : string;
  customScript : string
}.

(** Modelled from the spec: a hardware record (section 3). *)
Record Machine : Type := {
  interfaces : list Interface;
  facilityCode : string;
  instance : option client_Instance
}.

Fixpoint bytes_eqb (a b : list byte) : bool :=
  match a, b with
  | [], [] => true
  | x :: a, y :: b => Byte.eqb x y && bytes_eqb a b
  | _, _ => false
  end.

Definition byMAC (m : Machine) (hwaddr : HardwareAddr) : option Interface :=
  find (fun i => bytes_eqb (mac i) hwaddr) (interfaces m).

Definition byAddress (m : Machine) (ip : IP) : option Interface :=
  find (fun i => bytes_eqb (address i) ip) (interfaces m).

(** Modelled from the spec: the query surface of section 6 over a
    [Machine].  A query for a MAC identity that matches no interface
    answers the zero value; for the allow-netboot flag that is false
    (section 4.1). *)
Definition hardware (m : Machine) : client_Hardware :=
  let query {A} (f : Interface -> A) (zero : A) (hwaddr : HardwareAddr) :=
    match byMAC m hwaddr with
    | Some i => f i
    | None => zero
    end in
  {| HardwareAllowPXE := query allowNetboot false;
     HardwareArch := query architecture "";
     HardwareFacilityCode := facilityCode m;
     GetVLANID := query vlanID 0%Z;
     IPXEURL := query customChainURL "";
     IPXEScript := query customScript "" |}.

Definition discoverer (m : Machine) : client_Discoverer :=
  {| GetMAC := fun ip =>
       match byAddress m ip with
       | Some i => mac i
       | None => []
       end;
     Hardware := hardware m;
     Instance := instance m |}.

(** Modelled from the spec: [resolve(context, ip)] of section 6 over a
    list of machines; an address no interface has is an error. *)
Fixpoint resolve (inventory : list Machine) (ip : IP)
  : Result (option client_Discoverer) :=
  match inventory with
  | [] => Err "no hardware found"
  | m :: rest =>
      match byAddress m ip with
      | Some _ => Ok (Some (discoverer m))
      | None => resolve rest ip
      end
  end.

End Spec.

(** ** Worked scenarios: the data *)

Module Scenario.

Definition LF : string := String (ascii_of_nat 10) EmptyString.

(** A default template for the scenarios: it prints the fields the
    properties speak about. *)
Definition renderHook (d : Hook.t) : Result string :=
  Ok ("#!ipxe" +++ LF +++
      "set arch " +++ Hook.Arch d +++ LF +++
      "set worker_id " +++ Hook.WorkerID d +++ LF +++
      "set hw_addr " +++ Hook.HWAddr d +++ LF).

#[export] Instance renderer : Renderer :=
  Spec.renderer renderHook ("#!ipxe" +++ LF +++ "chain --autofree ") LF.

Definition theMAC : HardwareAddr := [xaa; xbb; xcc; xdd; xee; xff].
Definition theIP : IP := GoStd.ParseIP "10.0.0.5".

Definition iface (allow : bool) (arch chain script : string)
  : Spec.Interface :=
  {| Spec.mac := theMAC; Spec.address := theIP;
     Spec.allowNetboot := allow; Spec.architecture := arch;
     Spec.vlanID := 0%Z;
     Spec.customChainURL := chain; Spec.customScript := script |}.

Definition machine (allow : bool) (arch chain script : string)
    (inst : option client_Instance) : Spec.Machine :=
  {| Spec.interfaces := [iface allow arch chain script];
     Spec.facilityCode := "lab1";
     Spec.instance := inst |}.

Definition handler (inventory : list Spec.Machine) : Handler.t :=
  {| Handler.Finder_ByIP := Spec.resolve inventory;
     Handler.OSIEURL := "http://10.0.0.1/osie";
     Handler.ExtraKernelParams := ["console=ttyS1"];
     Handler.PublicSyslogFQDN := "10.0.0.1";
     Handler.TinkServerTLS := false;
     Handler.TinkServerGRPCAddr := "10.0.0.1:42113" |}.

Definition span : Span := {| IsSampled := false; SpanTraceID := "" |}.

Definition writer : ResponseWriter := {| Write_err := fun _ => None |}.

Definition request (path remote : string) : Request :=
  {| URL_Path := path; RemoteAddr := remote; Context := span |}.

(** The machine of the spec's scenarios: allowed to netboot, no custom
    field, no architecture, an instance without identifier. *)
Definition plain : Spec.Machine :=
  machine true "" "" "" (Some {| ID := "" |}).

Definition scripted : Spec.Machine :=
  machine true "" "" ("#!ipxe" +++ LF +++ "exit") None.

Definition chained (url : string) (script : string) : Spec.Machine :=
  machine true "" url script None.

Definition denied : Spec.Machine :=
  machine false "" "http://boot.example/x.ipxe" "#!ipxe" None.

End Scenario.


(** ** Statements and tactics of the proofs *)

(** The events around the body of an accepted request: lines 39-44. *)
Definition jobStart : list event :=
  [MetricInc "JobsTotal" labels; MetricInc "JobsInProgress" labels;
   TimerStart "JobDuration" labels].

Definition jobEnd : list event :=
  [TimerObserve "JobDuration" labels; MetricDec "JobsInProgress" labels].

(** The error of the last line of [customScript]. *)
Definition noCustomData : error :=
  "no custom script or chain defined in the hardware data".

(** The sentence on peer addresses as the spec words it: a request for
    [auto.ipxe] whose peer address does not split, or whose host is
    not the text of an IP address, is answered 500 without a hardware
    lookup. *)
Definition peerAddressRejected {L : GoLib} {R : Renderer}
    (h : Handler.t) (w : ResponseWriter) (r : Request) : Prop :=
  path_Base (URL_Path r) = "auto.ipxe" ->
  (exists err, net_SplitHostPort (RemoteAddr r) = Err err) \/
  (exists host port,
     net_SplitHostPort (RemoteAddr r) = Ok (host, port) /\
     net_ParseIP host = []) ->
  statusCode (run (HandlerFunc h w r)) = Some StatusInternalServerError /\
  lookups (run (HandlerFunc h w r)) = [].

(** Case analysis over the paths of [serveBootScript]. *)
Ltac serve_step :=
  match goal with
  | |- context [switchArm ?n] => destruct (switchArm n) eqn:?
  | |- context [match ?x with Some _ => _ | None => _ end] =>
      is_var x; destruct x
  | |- context [url_Parse ?c] => destruct (url_Parse c) eqn:?
  | |- context [GenerateTemplate ?d ?t] =>
      destruct (GenerateTemplate d t) eqn:?
  | |- context [Write_err ?w ?s] => destruct (Write_err w s) eqn:?
  | |- context [if ?b then _ else _] => destruct b eqn:?
  end.

Ltac serve_paths :=
  unfold serveBootScript, dispatch, defaultScript, customScript, scriptError;
  simpl; repeat (serve_step; simpl).

(** Case analysis over the paths of [HandlerFunc], those of
    [serveBootScript] included; every case keeps the equations that
    lead to it. *)
Ltac select_step :=
  match goal with
  | |- context [effectiveName ?hw ?ip ?n] =>
      unfold effectiveName; destruct (customScriptFound hw ip) eqn:?
  | |- context [switchArm ?n] => destruct (switchArm n) eqn:?
  | |- context [match ?x with Some _ => _ | None => _ end] =>
      is_var x; destruct x
  | |- context [IPXEURL ?hw ?mac =? ""] =>
      destruct (IPXEURL hw mac =? "") eqn:?
  | |- context [IPXEScript ?hw ?mac =? ""] =>
      destruct (IPXEScript hw mac =? "") eqn:?
  | |- context [url_Parse ?c] => destruct (url_Parse c) eqn:?
  | |- context [Scheme ?u =? "http"] => destruct (Scheme u =? "http") eqn:?
  | |- context [Scheme ?u =? "https"] => destruct (Scheme u =? "https") eqn:?
  | |- context [GenerateTemplate ?d ?t] =>
      destruct (GenerateTemplate d t) eqn:?
  | |- context [Write_err ?w ?s] => destruct (Write_err w s) eqn:?
  end.

Ltac serve_cases :=
  unfold serveBootScript, dispatch, defaultScript, customScript, scriptError;
  simpl; repeat (select_step; simpl).

Ltac handler_cases h w r :=
  unfold HandlerFunc;
  let Hbase := fresh "Hbase" in
  destruct (String.eqb_spec (path_Base (URL_Path r)) "auto.ipxe")
    as [Hbase | Hbase];
  [ rewrite ?Hbase; simpl;
    destruct (net_SplitHostPort (RemoteAddr r)) as [[? ?] | ?] eqn:?; simpl;
    [ match goal with
      | |- context [Handler.Finder_ByIP h ?ip] =>
          destruct (Handler.Finder_ByIP h ip) as [[?|]|?] eqn:?; simpl;
          [ match goal with
            | |- context [HardwareAllowPXE ?hw ?mac] =>
                destruct (HardwareAllowPXE hw mac) eqn:?; simpl;
                [ serve_cases | ]
            end
          | | ]
      end
    | ]
  | simpl ].

(** A case in which the selection of lines 94-96 and the reads of
    [customScript] disagree does not occur. *)
Ltac absurd_selection :=
  match goal with
  | H : customScriptFound (Some _) _ = _ |- _ =>
      unfold customScriptFound in H; simpl in H;
      repeat match goal with
             | E : (_ =? "") = _ |- _ => rewrite E in H
             end;
      simpl in H; discriminate H
  end.

(** The case of a request for another name. *)
Ltac other_name Hbase :=
  try (rewrite (proj2 (String.eqb_neq _ _) Hbase)); simpl.

(** ** Properties *)

(** *** Actions and observations *)

Lemma run_bind {A B} (m : Act A) (k : A -> Act B) :
  run (bind m k) =
  run m ++ match snd m with Some a => run (k a) | None => [] end.
Proof.
  destruct m as [tr [a|]]; unfold run; simpl.
  - destruct (k a); reflexivity.
  - now rewrite app_nil_r.
Qed.

Lemma lookups_app (a b : list event) :
  lookups (a ++ b) = lookups a ++ lookups b.
Proof.
  induction a as [|e a IH]; simpl; [reflexivity|].
  destruct e; simpl; rewrite ?IH; reflexivity.
Qed.

Section Properties.
Context {L : GoLib} {R : Renderer}.

(** The run of a request that passes the gate of lines 56-74. *)
Lemma HandlerFunc_served (h : Handler.t) (w : ResponseWriter) (r : Request)
    (host port : string) (hw : client_Discoverer) :
  path_Base (URL_Path r) = "auto.ipxe" ->
  net_SplitHostPort (RemoteAddr r) = Ok (host, port) ->
  Handler.Finder_ByIP h (net_ParseIP host) = Ok (Some hw) ->
  HardwareAllowPXE (Hardware hw) (GetMAC hw (net_ParseIP host)) = true ->
  run (HandlerFunc h w r) =
  jobStart ++
  FinderByIP (net_ParseIP host) ::
  run (serveBootScript h (Context r) w "auto.ipxe"
         (IP_String (net_ParseIP host)) (Some hw)) ++
  jobEnd.
Proof.
  intros Hbase Hsplit Hfind Hallow.
  unfold HandlerFunc. rewrite Hbase. simpl.
  rewrite Hsplit, Hfind, Hallow. simpl.
  destruct (serveBootScript _ _ _ _ _ _). reflexivity.
Qed.

(** The run of a request for another name, lines 33-38. *)
Lemma HandlerFunc_other_name (h : Handler.t) (w : ResponseWriter)
    (r : Request) :
  path_Base (URL_Path r) <> "auto.ipxe" ->
  run (HandlerFunc h w r) =
  [LogInfo "not found" [("path", URL_Path r)]; WriteHeader StatusNotFound].
Proof.
  intros Hbase. apply String.eqb_neq in Hbase.
  unfold HandlerFunc. rewrite Hbase. reflexivity.
Qed.

(** The run of an accepted request whose peer address does not split,
    lines 46-52. *)
Lemma HandlerFunc_bad_address (h : Handler.t) (w : ResponseWriter)
    (r : Request) (err : error) :
  path_Base (URL_Path r) = "auto.ipxe" ->
  net_SplitHostPort (RemoteAddr r) = Err err ->
  run (HandlerFunc h w r) =
  jobStart ++
  [WriteHeader StatusInternalServerError;
   LogError (errors_Wrap err "splitting host:ip")
     "error parsing client address" [("client", RemoteAddr r)]] ++
  jobEnd.
Proof.
  intros Hbase Hsplit.
  unfold HandlerFunc. rewrite Hbase. simpl.
  rewrite Hsplit. reflexivity.
Qed.

(** The run of an accepted request for which the finder has no record,
    lines 56-62. *)
Lemma HandlerFunc_no_record (h : Handler.t) (w : ResponseWriter)
    (r : Request) (host port : string) (err : error) :
  path_Base (URL_Path r) = "auto.ipxe" ->
  net_SplitHostPort (RemoteAddr r) = Ok (host, port) ->
  Handler.Finder_ByIP h (net_ParseIP host) = Err err ->
  run (HandlerFunc h w r) =
  jobStart ++
  [FinderByIP (net_ParseIP host); WriteHeader StatusNotFound;
   LogError err "no job found for client address"
     [("client", RemoteAddr r)]] ++
  jobEnd.
Proof.
  intros Hbase Hsplit Hfind.
  unfold HandlerFunc. rewrite Hbase. simpl.
  rewrite Hsplit, Hfind. reflexivity.
Qed.

(** The run of an accepted request whose record does not allow
    netboot, lines 69-74. *)
Lemma HandlerFunc_denied (h : Handler.t) (w : ResponseWriter)
    (r : Request) (host port : string) (hw : client_Discoverer) :
  path_Base (URL_Path r) = "auto.ipxe" ->
  net_SplitHostPort (RemoteAddr r) = Ok (host, port) ->
  Handler.Finder_ByIP h (net_ParseIP host) = Ok (Some hw) ->
  HardwareAllowPXE (Hardware hw) (GetMAC hw (net_ParseIP host)) = false ->
  run (HandlerFunc h w r) =
  jobStart ++
  [FinderByIP (net_ParseIP host); WriteHeader StatusNotFound;
   LogInfo
     "the hardware data for this machine, or lack there of, does not allow it to pxe; allow_pxe: false"
     [("client", RemoteAddr r)]] ++
  jobEnd.
Proof.
  intros Hbase Hsplit Hfind Hallow.
  unfold HandlerFunc. rewrite Hbase. simpl.
  rewrite Hsplit, Hfind, Hallow. reflexivity.
Qed.

(** The run of an accepted request for which the finder answers a nil
    discoverer without an error: line 69 panics. *)
Lemma HandlerFunc_nil_record (h : Handler.t) (w : ResponseWriter)
    (r : Request) (host port : string) :
  path_Base (URL_Path r) = "auto.ipxe" ->
  net_SplitHostPort (RemoteAddr r) = Ok (host, port) ->
  Handler.Finder_ByIP h (net_ParseIP host) = Ok None ->
  run (HandlerFunc h w r) =
  jobStart ++
  [FinderByIP (net_ParseIP host);
   Panic "invalid memory address or nil pointer dereference"] ++
  jobEnd.
Proof.
  intros Hbase Hsplit Hfind.
  unfold HandlerFunc. rewrite Hbase. simpl.
  rewrite Hsplit, Hfind. reflexivity.
Qed.

(** [serveBootScript] makes no hardware lookup. *)
Lemma serveBootScript_lookups (h : Handler.t) (ctx : Span)
    (w : ResponseWriter) (name ip : string) (hw : option client_Discoverer) :
  lookups (run (serveBootScript h ctx w name ip hw)) = [].
Proof. serve_paths; reflexivity. Qed.

(** *** The request classifier *)

(** C4: a request whose final path segment is not [auto.ipxe] is
    answered 404 and nothing else happens: the run is one log line and
    the status, with no hardware lookup and no metric. *)
Theorem C4_other_name_not_found (h : Handler.t) (w : ResponseWriter)
    (r : Request) :
  path_Base (URL_Path r) <> "auto.ipxe" ->
  statusCode (run (HandlerFunc h w r)) = Some StatusNotFound /\
  lookups (run (HandlerFunc h w r)) = [] /\
  metricEvents (run (HandlerFunc h w r)) = [] /\
  selected (run (HandlerFunc h w r)) = [] /\
  run (HandlerFunc h w r) =
  [LogInfo "not found" [("path", URL_Path r)]; WriteHeader StatusNotFound].
Proof.
  intros Hbase. rewrite (HandlerFunc_other_name h w r Hbase).
  repeat split; reflexivity.
Qed.

(** C1: for a request for [auto.ipxe] whose client address is
    [net_ParseIP host], if the finder has no record for that address,
    or the record's allow-netboot flag for the resolved MAC is false,
    the answer is 404, [serveBootScript] is not entered and nothing is
    rendered or written, whatever custom script or chain URL the record
    holds. *)
Theorem C1_gate_not_found (h : Handler.t) (w : ResponseWriter) (r : Request)
    (host port : string) (err : error) (hw : client_Discoverer) :
  path_Base (URL_Path r) = "auto.ipxe" ->
  net_SplitHostPort (RemoteAddr r) = Ok (host, port) ->
  Handler.Finder_ByIP h (net_ParseIP host) = Err err \/
  (Handler.Finder_ByIP h (net_ParseIP host) = Ok (Some hw) /\
   HardwareAllowPXE (Hardware hw) (GetMAC hw (net_ParseIP host)) = false) ->
  statusCode (run (HandlerFunc h w r)) = Some StatusNotFound /\
  selected (run (HandlerFunc h w r)) = [] /\
  rendered (run (HandlerFunc h w r)) = [] /\
  written (run (HandlerFunc h w r)) = [].
Proof.
  intros Hbase Hsplit [Hfind | [Hfind Hallow]].
  - rewrite (HandlerFunc_no_record h w r host port err Hbase Hsplit Hfind).
    repeat split; reflexivity.
  - rewrite (HandlerFunc_denied h w r host port hw Hbase Hsplit Hfind Hallow).
    repeat split; reflexivity.
Qed.

(** C7, as the code has it: a request for [auto.ipxe] whose peer
    address does not split into host and port is answered 500 and no
    hardware lookup is made.  When the address splits, the lookup is
    made with whatever [net.ParseIP] gave for the host, the nil address
    included: nothing is written to the response before the lookup,
    and a nil address the finder has no record for is answered 404. *)
Theorem C7_peer_address (h : Handler.t) (w : ResponseWriter) (r : Request) :
  path_Base (URL_Path r) = "auto.ipxe" ->
  (forall err, net_SplitHostPort (RemoteAddr r) = Err err ->
     statusCode (run (HandlerFunc h w r)) = Some StatusInternalServerError /\
     lookups (run (HandlerFunc h w r)) = []) /\
  (forall host port, net_SplitHostPort (RemoteAddr r) = Ok (host, port) ->
     lookups (run (HandlerFunc h w r)) = [net_ParseIP host] /\
     (exists rest,
        run (HandlerFunc h w r) =
        jobStart ++ FinderByIP (net_ParseIP host) :: rest) /\
     (forall err, net_ParseIP host = [] ->
        Handler.Finder_ByIP h [] = Err err ->
        statusCode (run (HandlerFunc h w r)) = Some StatusNotFound)).
Proof.
  intros Hbase. split.
  - intros err Hsplit.
    rewrite (HandlerFunc_bad_address h w r err Hbase Hsplit).
    split; reflexivity.
  - intros host port Hsplit.
    assert (Hrun : exists rest,
               run (HandlerFunc h w r) =
               jobStart ++ FinderByIP (net_ParseIP host) :: rest /\
               lookups rest = []).
    { destruct (Handler.Finder_ByIP h (net_ParseIP host)) as [[hw|]|e] eqn:Hfind.
      - destruct (HardwareAllowPXE (Hardware hw) (GetMAC hw (net_ParseIP host)))
          eqn:Hallow.
        + rewrite (HandlerFunc_served h w r host port hw Hbase Hsplit Hfind Hallow).
          eexists; split; [reflexivity|].
          rewrite lookups_app, serveBootScript_lookups. reflexivity.
        + rewrite (HandlerFunc_denied h w r host port hw Hbase Hsplit Hfind Hallow).
          eexists; split; reflexivity.
      - rewrite (HandlerFunc_nil_record h w r host port Hbase Hsplit Hfind).
        eexists; split; reflexivity.
      - rewrite (HandlerFunc_no_record h w r host port e Hbase Hsplit Hfind).
        eexists; split; reflexivity. }
    destruct Hrun as [rest [Hrun Hrest]]. repeat split.
    + rewrite Hrun. simpl. now rewrite Hrest.
    + exists rest. exact Hrun.
    + intros err Hnil Hfind. rewrite <- Hnil in Hfind.
      rewrite (HandlerFunc_no_record h w r host port err Hbase Hsplit Hfind).
      reflexivity.
Qed.

(** *** The script selector *)

Lemma customScriptFound_iff (hw : client_Discoverer) (ip : string) :
  customScriptFound (Some hw) ip = true <->
  IPXEURL (Hardware hw) (GetMAC hw (net_ParseIP ip)) <> "" \/
  IPXEScript (Hardware hw) (GetMAC hw (net_ParseIP ip)) <> "".
Proof.
  unfold customScriptFound.
  rewrite orb_true_iff, !negb_true_iff, !String.eqb_neq. reflexivity.
Qed.



(** C5: in the default flow the context handed to the renderer has
    the record's architecture when that is not empty and [x86_64] when
    it is, and as worker identifier the instance's ID when there is an
    instance with a non-empty ID and the text of the MAC otherwise. *)
Theorem C5_default_context (h : Handler.t) (span : Span)
    (hw : client_Discoverer) (ip : string) :
  let mac := GetMAC hw (net_ParseIP ip) in
  let auto := bootContext h span hw ip in
  rendered (run (defaultScript h span (Some hw) ip)) =
    [(DataHook auto, HookScript)] /\
  (HardwareArch (Hardware hw) mac <> "" ->
     Hook.Arch auto = HardwareArch (Hardware hw) mac) /\
  (HardwareArch (Hardware hw) mac = "" -> Hook.Arch auto = "x86_64") /\
  (forall i, Instance hw = Some i -> ID i <> "" ->
     Hook.WorkerID auto = ID i) /\
  (Instance hw = None \/ (exists i, Instance hw = Some i /\ ID i = "") ->
     Hook.WorkerID auto = HardwareAddr_String mac).
Proof.
  intros mac auto. subst auto. unfold bootContext. fold mac. simpl.
  repeat split.
  - intros Harch. apply String.eqb_neq in Harch. now rewrite Harch.
  - intros Harch. now rewrite Harch.
  - intros i Hi Hid. rewrite Hi. apply String.eqb_neq in Hid.
    now rewrite Hid.
  - intros [Hnone | [i [Hi Hid]]].
    + now rewrite Hnone.
    + now rewrite Hi, Hid.
Qed.

(** C3: with a non-empty chain URL on the record, the custom flow
    renders the chain and leaves the script body out, whatever the body
    is; and when the URL does not parse, or parses to a scheme other
    than [http] and [https], [customScript] returns an error, the
    answer is 500 and nothing is rendered or written. *)
Theorem C3_chain_url (h : Handler.t) (ctx : Span) (w : ResponseWriter)
    (name ip : string) (hw : client_Discoverer) :
  let mac := GetMAC hw (net_ParseIP ip) in
  let chain := IPXEURL (Hardware hw) mac in
  let tr := run (serveBootScript h ctx w name ip (Some hw)) in
  chain <> "" ->
  (forall u, url_Parse chain = Ok u ->
     Scheme u = "http" \/ Scheme u = "https" ->
     let c := {| Custom.Chain := Some u; Custom.Script := "" |} in
     snd (customScript h (Some hw) ip) =
       Some (GenerateTemplate (DataCustom c) CustomScript) /\
     rendered tr = [(DataCustom c, CustomScript)]) /\
  ((exists err, url_Parse chain = Err err) \/
   (exists u, url_Parse chain = Ok u /\
      Scheme u <> "http" /\ Scheme u <> "https") ->
   (exists err, snd (customScript h (Some hw) ip) = Some (Err err)) /\
   statusCode tr = Some StatusInternalServerError /\
   rendered tr = [] /\ written tr = []).
Proof.
  intros mac chain tr Hchain. subst tr.
  assert (Hfound : customScriptFound (Some hw) ip = true).
  { apply customScriptFound_iff. left. exact Hchain. }
  apply String.eqb_neq in Hchain.
  unfold serveBootScript, dispatch, effectiveName. rewrite Hfound.
  unfold customScript. fold mac. fold chain. rewrite Hchain. simpl.
  split.
  - intros u Hu Hscheme. rewrite Hu.
    assert (Hok : negb (Scheme u =? "http") && negb (Scheme u =? "https")
                  = false).
    { destruct Hscheme as [-> | ->]; reflexivity. }
    rewrite Hok. simpl. split; [reflexivity|].
    destruct (GenerateTemplate _ _); simpl; [|reflexivity].
    destruct (Write_err _ _); reflexivity.
  - intros [[err Herr] | [u [Hu [Hhttp Hhttps]]]].
    + rewrite Herr. simpl. repeat split. eexists; reflexivity.
    + rewrite Hu. apply String.eqb_neq in Hhttp, Hhttps.
      rewrite Hhttp, Hhttps. simpl. repeat split. eexists; reflexivity.
Qed.

(** C8: when the custom flow runs on a record whose chain URL and
    script body are both empty, [customScript] fails with the error
    that begins [no custom script or chain defined], and the answer is
    500 with nothing rendered or written. *)
Theorem C8_no_custom_data (h : Handler.t) (ctx : Span) (w : ResponseWriter)
    (ip : string) (hw : client_Discoverer) :
  let mac := GetMAC hw (net_ParseIP ip) in
  let tr := run (serveBootScript h ctx w "custom.ipxe" ip (Some hw)) in
  IPXEURL (Hardware hw) mac = "" ->
  IPXEScript (Hardware hw) mac = "" ->
  customScript h (Some hw) ip = ([], Some (Err noCustomData)) /\
  prefix "no custom script or chain defined" noCustomData = true /\
  statusCode tr = Some StatusInternalServerError /\
  rendered tr = [] /\ written tr = [].
Proof.
  intros mac tr Hurl Hscript. subst tr.
  unfold serveBootScript, dispatch, effectiveName, customScriptFound,
    customScript.
  fold mac. rewrite Hurl, Hscript. simpl. repeat split.
Qed.

(** *** The renderer *)


(** *** The unknown-name arm *)

(** The arms of the two scripts set no [boots.script_name] attribute
    and write no 404. *)
Lemma dispatch_known_arm (h : Handler.t) (span : Span) (w : ResponseWriter)
    (name ip : string) (hw : option client_Discoverer) :
  switchArm name <> CaseOther ->
  selected (run (dispatch h span w name ip hw)) = [] /\
  ~ In (WriteHeader StatusNotFound) (run (dispatch h span w name ip hw)).
Proof.
  intros Harm. unfold dispatch.
  destruct (switchArm name); [| |contradiction];
    unfold defaultScript, customScript, scriptError; simpl;
    repeat (serve_step; simpl);
    (split; [reflexivity | simpl; intuition discriminate]).
Qed.

(** The arm of [default:] does answer 404: a name that is neither
    script, on a record without custom data. *)
Lemma dispatch_other_arm (h : Handler.t) (span : Span) (w : ResponseWriter)
    (name ip : string) (hw : option client_Discoverer) :
  switchArm name = CaseOther ->
  run (dispatch h span w name ip hw) =
  [WriteHeader StatusNotFound;
   LogError ("boot script " +++ fmt_q name +++ " not found") "error"
     [("script", name)];
   SpanSetStatusError ("boot script " +++ fmt_q name +++ " not found")].
Proof. intros Harm. unfold dispatch. rewrite Harm. reflexivity. Qed.

(** C10: in every run of [HandlerFunc], [serveBootScript] is entered
    with the name [auto.ipxe] only; the name its [switch] then sees is
    [auto.ipxe] or [custom.ipxe], the arm of [default:] is not taken,
    and no 404 is written once [serveBootScript] is entered. *)
Theorem C10_unknown_name_unreachable (h : Handler.t) (w : ResponseWriter)
    (r : Request) :
  (forall e, In e (selected (run (HandlerFunc h w r))) ->
     e = SpanSetAttributes "boots.script_name" "auto.ipxe") /\
  (forall hw ip,
     (effectiveName hw ip "auto.ipxe" = "auto.ipxe" \/
      effectiveName hw ip "auto.ipxe" = "custom.ipxe") /\
     switchArm (effectiveName hw ip "auto.ipxe") <> CaseOther) /\
  ~ In (WriteHeader StatusNotFound) (afterSelect (run (HandlerFunc h w r))).
Proof.
  assert (Harm : forall hw ip,
             (effectiveName hw ip "auto.ipxe" = "auto.ipxe" \/
              effectiveName hw ip "auto.ipxe" = "custom.ipxe") /\
             switchArm (effectiveName hw ip "auto.ipxe") <> CaseOther).
  { intros hw ip. unfold effectiveName.
    destruct (customScriptFound hw ip); split; auto; discriminate. }
  assert (Hquiet : forall tr : list event,
             tr = run (HandlerFunc h w r) ->
             selected tr = [] -> afterSelect tr = [] ->
             (forall e, In e (selected tr) ->
                e = SpanSetAttributes "boots.script_name" "auto.ipxe") /\
             ~ In (WriteHeader StatusNotFound) (afterSelect tr)).
  { intros tr _ Hsel Hafter. rewrite Hsel, Hafter. split; [intros e []|intros []]. }
  cut ((forall e, In e (selected (run (HandlerFunc h w r))) ->
          e = SpanSetAttributes "boots.script_name" "auto.ipxe") /\
       ~ In (WriteHeader StatusNotFound)
           (afterSelect (run (HandlerFunc h w r)))).
  { intros [H1 H2]. split; [exact H1 | split; [exact Harm | exact H2]]. }
  destruct (String.eqb_spec (path_Base (URL_Path r)) "auto.ipxe")
    as [Hbase | Hbase].
  2:{ apply Hquiet; [reflexivity | |];
        rewrite (HandlerFunc_other_name h w r Hbase); reflexivity. }
  destruct (net_SplitHostPort (RemoteAddr r)) as [[host port] | err] eqn:Hsplit.
  2:{ apply Hquiet; [reflexivity | |];
        rewrite (HandlerFunc_bad_address h w r err Hbase Hsplit); reflexivity. }
  destruct (Handler.Finder_ByIP h (net_ParseIP host)) as [[hw|]|err] eqn:Hfind.
  3:{ apply Hquiet; [reflexivity | |];
        rewrite (HandlerFunc_no_record h w r host port err Hbase Hsplit Hfind);
        reflexivity. }
  2:{ apply Hquiet; [reflexivity | |];
        rewrite (HandlerFunc_nil_record h w r host port Hbase Hsplit Hfind);
        reflexivity. }
  destruct (HardwareAllowPXE (Hardware hw) (GetMAC hw (net_ParseIP host)))
    eqn:Hallow.
  2:{ apply Hquiet; [reflexivity | |];
        rewrite (HandlerFunc_denied h w r host port hw Hbase Hsplit Hfind Hallow);
        reflexivity. }
  rewrite (HandlerFunc_served h w r host port hw Hbase Hsplit Hfind Hallow).
  unfold serveBootScript. rewrite run_bind. simpl.
  destruct (dispatch_known_arm h (Context r) w
              (effectiveName (Some hw) (IP_String (net_ParseIP host)) "auto.ipxe")
              (IP_String (net_ParseIP host)) (Some hw)) as [Hsel Hno404].
  { apply Harm. }
  unfold selected in *. rewrite filter_app, Hsel. simpl. split.
  - intros e [<- | []]. reflexivity.
  - rewrite in_app_iff. intros [Hin | Hin]; [exact (Hno404 Hin)|].
    simpl in Hin. intuition discriminate.
Qed.

End Properties.

(** *** The inventory, after the spec *)

(** A MAC identity that matches no interface of the record is not
    allowed to netboot. *)
Lemma no_matching_interface_denied (m : Spec.Machine) (hwaddr : HardwareAddr) :
  Spec.byMAC m hwaddr = None ->
  HardwareAllowPXE (Spec.hardware m) hwaddr = false.
Proof. intros Hnone. simpl. now rewrite Hnone. Qed.

(** *** The custom template, after the spec *)

(** C6: on a record without chain URL and with a non-empty script
    body, the custom flow returns the body as it is stored, and the
    response is 200 with exactly that body. *)
Theorem C6_literal_script_verbatim {L : GoLib}
    (renderHook : Hook.t -> Result string) (chainPrefix chainSuffix : string)
    (h : Handler.t) (ctx : Span) (w : ResponseWriter) (name ip : string)
    (hw : client_Discoverer) :
  let R := Spec.renderer renderHook chainPrefix chainSuffix in
  let mac := GetMAC hw (net_ParseIP ip) in
  let tr := run (serveBootScript (R := R) h ctx w name ip (Some hw)) in
  IPXEURL (Hardware hw) mac = "" ->
  IPXEScript (Hardware hw) mac <> "" ->
  snd (customScript (R := R) h (Some hw) ip) =
    Some (Ok (IPXEScript (Hardware hw) mac)) /\
  written tr = [IPXEScript (Hardware hw) mac] /\
  statusCode tr = Some StatusOK.
Proof.
  intros R mac tr Hurl Hscript. subst tr.
  assert (Hfound : customScriptFound (Some hw) ip = true).
  { apply customScriptFound_iff. right. exact Hscript. }
  apply String.eqb_neq in Hscript.
  unfold serveBootScript, dispatch, effectiveName. rewrite Hfound.
  unfold customScript. fold mac. rewrite Hurl, Hscript. simpl.
  destruct (Write_err _ _); repeat split.
Qed.

(** ** The pipeline as a whole *)

Section Pipeline.
Context {L : GoLib} {R : Renderer}.

(** X1: the job metrics are balanced on every path of an accepted
    request, the panic included, and absent otherwise. *)
Theorem X1_metrics_balanced (h : Handler.t) (w : ResponseWriter)
    (r : Request) :
  metricEvents (run (HandlerFunc h w r)) =
  if path_Base (URL_Path r) =? "auto.ipxe" then jobStart ++ jobEnd else [].
Proof.
  handler_cases h w r.
  all: try (rewrite (proj2 (String.eqb_neq _ _) Hbase)).
  all: try rewrite String.eqb_refl.
  all: reflexivity.
Qed.

(** The names of the arms of the [switch]. *)
Lemma switchArm_spec (name : string) :
  match switchArm name with
  | CaseAuto => name = "auto.ipxe"
  | CaseCustom => name = "custom.ipxe"
  | CaseOther => name <> "auto.ipxe" /\ name <> "custom.ipxe"
  end.
Proof.
  unfold switchArm.
  destruct (String.eqb_spec name "auto.ipxe"); [assumption|].
  destruct (String.eqb_spec name "custom.ipxe"); [assumption|].
  split; assumption.
Qed.

(** X2: a run of [HandlerFunc] enters [serveBootScript], renders or
    writes a script only for a request that passed the gate: the name
    is [auto.ipxe], the peer address splits, the finder has a record for
    the client and the record allows netboot for the resolved MAC. *)
Theorem X2_script_only_after_gate (h : Handler.t) (w : ResponseWriter)
    (r : Request) :
  selected (run (HandlerFunc h w r)) <> [] \/
  rendered (run (HandlerFunc h w r)) <> [] \/
  written (run (HandlerFunc h w r)) <> [] ->
  exists host port hw,
    path_Base (URL_Path r) = "auto.ipxe" /\
    net_SplitHostPort (RemoteAddr r) = Ok (host, port) /\
    Handler.Finder_ByIP h (net_ParseIP host) = Ok (Some hw) /\
    HardwareAllowPXE (Hardware hw) (GetMAC hw (net_ParseIP host)) = true.
Proof.
  intros Hscript.
  destruct (String.eqb_spec (path_Base (URL_Path r)) "auto.ipxe")
    as [Hbase | Hbase].
  2:{ rewrite (HandlerFunc_other_name h w r Hbase) in Hscript.
      simpl in Hscript. intuition congruence. }
  destruct (net_SplitHostPort (RemoteAddr r)) as [[host port] | err] eqn:Hsplit.
  2:{ rewrite (HandlerFunc_bad_address h w r err Hbase Hsplit) in Hscript.
      simpl in Hscript. intuition congruence. }
  destruct (Handler.Finder_ByIP h (net_ParseIP host)) as [[hw|]|err] eqn:Hfind.
  3:{ rewrite (HandlerFunc_no_record h w r host port err Hbase Hsplit Hfind)
        in Hscript.
      simpl in Hscript. intuition congruence. }
  2:{ rewrite (HandlerFunc_nil_record h w r host port Hbase Hsplit Hfind)
        in Hscript.
      simpl in Hscript. intuition congruence. }
  destruct (HardwareAllowPXE (Hardware hw) (GetMAC hw (net_ParseIP host)))
    eqn:Hallow.
  2:{ rewrite (HandlerFunc_denied h w r host port hw Hbase Hsplit Hfind Hallow)
        in Hscript.
      simpl in Hscript. intuition congruence. }
  exists host, port, hw. repeat split; assumption.
Qed.

(** X3: a run of [HandlerFunc] writes to the response at most once,
    a status or a body and never both; it writes nothing exactly when
    it panics. *)
Theorem X3_one_response (h : Handler.t) (w : ResponseWriter) (r : Request) :
  (List.length (headers (run (HandlerFunc h w r))) +
   List.length (written (run (HandlerFunc h w r))) <= 1)%nat /\
  (List.length (headers (run (HandlerFunc h w r))) +
   List.length (written (run (HandlerFunc h w r))) = 0%nat <->
   panicked (run (HandlerFunc h w r)) = true).
Proof.
  handler_cases h w r; other_name Hbase;
    (split; [lia | split; intros; (lia || discriminate || reflexivity)]).
Qed.

(** X4: the status of a response is 200, 404 or 500; it is 200
    exactly when a body is written, and then there is one body. *)
Theorem X4_status_and_body (h : Handler.t) (w : ResponseWriter) (r : Request) :
  (forall c, statusCode (run (HandlerFunc h w r)) = Some c ->
     c = StatusOK \/ c = StatusNotFound \/ c = StatusInternalServerError) /\
  (statusCode (run (HandlerFunc h w r)) = Some StatusOK <->
   exists s, written (run (HandlerFunc h w r)) = [s]) /\
  (statusCode (run (HandlerFunc h w r)) <> Some StatusOK ->
   written (run (HandlerFunc h w r)) = []).
Proof.
  handler_cases h w r; other_name Hbase;
    (split; [intros code Hcode;
             first [discriminate Hcode | injection Hcode as <-; auto] |]);
    (split; [split; [intros Hcode;
                     first [discriminate Hcode | eexists; reflexivity]
                    | intros [body Hbody];
                      first [discriminate Hbody | reflexivity]]
            | intros Hcode;
              first [reflexivity | exfalso; apply Hcode; reflexivity]]).
Qed.


(** X5: the body of a 200 response is the text [GenerateTemplate]
    returned for the one context rendered in the run, and the span
    attribute [ipxe-script] holds the same text. *)
Theorem X5_body_is_rendering (h : Handler.t) (w : ResponseWriter)
    (r : Request) :
  statusCode (run (HandlerFunc h w r)) = Some StatusOK ->
  exists d t s,
    rendered (run (HandlerFunc h w r)) = [(d, t)] /\
    GenerateTemplate d t = Ok s /\
    written (run (HandlerFunc h w r)) = [s] /\
    tracedScripts (run (HandlerFunc h w r)) = [s].
Proof.
  handler_cases h w r; other_name Hbase; intros Hcode;
    first [ discriminate Hcode
          | do 3 eexists;
            split; [reflexivity | split; [eassumption | split; reflexivity]] ].
Qed.

(** X6: a request is left without a response exactly when the finder
    answers a nil discoverer without an error, and that is the one
    case of a panic. *)
Theorem X6_no_response_iff_nil_record (h : Handler.t) (w : ResponseWriter)
    (r : Request) :
  (statusCode (run (HandlerFunc h w r)) = None <->
   exists host port,
     path_Base (URL_Path r) = "auto.ipxe" /\
     net_SplitHostPort (RemoteAddr r) = Ok (host, port) /\
     Handler.Finder_ByIP h (net_ParseIP host) = Ok None) /\
  (statusCode (run (HandlerFunc h w r)) = None <->
   panicked (run (HandlerFunc h w r)) = true).
Proof.
  handler_cases h w r; other_name Hbase;
    (split;
     [ split;
       [ intros Hcode; first [discriminate Hcode | eauto 10]
       | intros (host & port & Hb & Hs & Hf); first [reflexivity | congruence] ]
     | split; intros Hcode; first [reflexivity | discriminate Hcode] ]).
Qed.

(** X7: when [GenerateTemplate] fails on the context of the run, the
    answer is 500 without a body, and the error, wrapped with the
    message of its flow, is logged once under the script name and set
    as the span status. *)
Theorem X7_render_failure (h : Handler.t) (w : ResponseWriter) (r : Request)
    (d : TemplateData) (t : Template) (e : error) :
  rendered (run (HandlerFunc h w r)) = [(d, t)] ->
  GenerateTemplate d t = Err e ->
  let msg := match t with
             | HookScript => "error with default ipxe script"
             | CustomScript => "error with custom ipxe script"
             end in
  let name := match t with
              | HookScript => "auto.ipxe"
              | CustomScript => "custom.ipxe"
              end in
  statusCode (run (HandlerFunc h w r)) = Some StatusInternalServerError /\
  written (run (HandlerFunc h w r)) = [] /\
  logs (run (HandlerFunc h w r)) =
    [LogError (errors_Wrap e msg) "error" [("script", name)]] /\
  spanErrors (run (HandlerFunc h w r)) = [errors_Wrap e msg].
Proof.
  revert d t e.
  handler_cases h w r; other_name Hbase; intros data tpl failure Hr He;
    first [ discriminate Hr
          | injection Hr as <- <-;
            match goal with
            | E : GenerateTemplate _ _ = _ |- _ =>
                tryif constr_eq E He then fail else rewrite E in He
            end;
            first [ discriminate He
                  | injection He as <-; cbv zeta; repeat split ] ].
Qed.

(** X18: when [GenerateTemplate] succeeds on the context of the run,
    the answer is 200 and the body is the text it returned, whether or
    not the write succeeds. *)
Theorem X18_render_success (h : Handler.t) (w : ResponseWriter) (r : Request)
    (d : TemplateData) (t : Template) (s : string) :
  rendered (run (HandlerFunc h w r)) = [(d, t)] ->
  GenerateTemplate d t = Ok s ->
  statusCode (run (HandlerFunc h w r)) = Some StatusOK /\
  headers (run (HandlerFunc h w r)) = [] /\
  written (run (HandlerFunc h w r)) = [s].
Proof.
  revert d t s.
  handler_cases h w r; other_name Hbase; intros data tpl text Hr Ht;
    first [ discriminate Hr
          | injection Hr as <- <-;
            match goal with
            | E : GenerateTemplate _ _ = _ |- _ =>
                tryif constr_eq E Ht then fail else rewrite E in Ht
            end;
            first [ discriminate Ht
                  | injection Ht as <-; repeat split ] ].
Qed.

(** X8: [serveBootScript] renders at most once; a boot decision
    context is rendered against [HookScript] only, with a non-empty
    architecture, and only when the name is [auto.ipxe] and the record
    has no custom data. *)
Theorem X8_hook_context_invariant (h : Handler.t) (ctx : Span)
    (w : ResponseWriter) (name ip : string) (hw : option client_Discoverer) :
  (List.length (rendered (run (serveBootScript h ctx w name ip hw))) <= 1)%nat
  /\
  (forall k t,
     In (DataHook k, t) (rendered (run (serveBootScript h ctx w name ip hw))) ->
     t = HookScript /\ Hook.Arch k <> "" /\
     customScriptFound hw ip = false /\ name = "auto.ipxe").
Proof.
  generalize (switchArm_spec name).
  serve_cases; intros Hname; (split; [simpl; lia |]); intros k t Hin;
    simpl in Hin;
    first [ contradiction
          | destruct Hin as [Hin | []];
            first [ discriminate Hin
                  | injection Hin as <- <-; repeat split; try assumption;
                    unfold bootContext; simpl;
                    match goal with
                    | |- (if ?b then _ else _) <> _ =>
                        destruct b eqn:Harch;
                        [discriminate | apply String.eqb_neq; exact Harch]
                    end ] ].
Qed.


(** X9: a custom context is rendered against [CustomScript] only and
    holds either a chain URL, parsed from a non-empty text and with
    scheme [http] or [https], and no script, or a non-empty script and
    no chain URL. *)
Theorem X9_custom_context_invariant (h : Handler.t) (ctx : Span)
    (w : ResponseWriter) (name ip : string) (hw : option client_Discoverer) :
  forall c t,
    In (DataCustom c, t) (rendered (run (serveBootScript h ctx w name ip hw))) ->
    t = CustomScript /\
    ((exists u raw,
        Custom.Chain c = Some u /\ Custom.Script c = "" /\
        raw <> "" /\ url_Parse raw = Ok u /\
        (Scheme u = "http" \/ Scheme u = "https")) \/
     (Custom.Chain c = None /\ Custom.Script c <> "")).
Proof.
  serve_cases; intros c' t' Hin; simpl in Hin;
    first [ contradiction
          | destruct Hin as [Hin | []];
            first [ discriminate Hin
                  | injection Hin as <- <-; split; [reflexivity|] ] ].
  all: repeat match goal with
         | E : (_ =? _) = true |- _ => apply String.eqb_eq in E
         | E : (_ =? _) = false |- _ => apply String.eqb_neq in E
         end.
  all: first [ right; split; [reflexivity | assumption]
             | left; do 2 eexists;
               split; [reflexivity |
               split; [reflexivity |
               split; [eassumption |
               split; [eassumption | auto]]]] ].
Qed.

(** X10: [serveBootScript] answers 404 exactly when the name is
    neither [auto.ipxe] nor [custom.ipxe] and the record has no custom
    data (or there is no record): custom data overrides any name. *)
Theorem X10_unknown_name_iff (h : Handler.t) (ctx : Span)
    (w : ResponseWriter) (name ip : string) (hw : option client_Discoverer) :
  statusCode (run (serveBootScript h ctx w name ip hw)) = Some StatusNotFound
  <->
  customScriptFound hw ip = false /\
  name <> "auto.ipxe" /\ name <> "custom.ipxe".
Proof.
  generalize (switchArm_spec name).
  serve_cases; intros Hname;
    (split;
     [ intros Hcode; first [discriminate Hcode | tauto]
     | intros (Hfound & Hauto & Hcustom);
       first [reflexivity | discriminate Hfound | contradiction] ]).
Qed.

(** X11: on a nil discoverer [customScriptFound] is false, and
    [serveBootScript] writes and renders nothing: it panics for the
    names of the two scripts and answers 404 for any other. *)
Theorem X11_nil_discoverer (h : Handler.t) (ctx : Span) (w : ResponseWriter)
    (name ip : string) :
  customScriptFound None ip = false /\
  written (run (serveBootScript h ctx w name ip None)) = [] /\
  rendered (run (serveBootScript h ctx w name ip None)) = [] /\
  statusCode (run (serveBootScript h ctx w name ip None)) =
    match switchArm name with
    | CaseOther => Some StatusNotFound
    | _ => None
    end.
Proof.
  unfold serveBootScript, dispatch, effectiveName. simpl.
  destruct (switchArm name); repeat split.
Qed.

(** X12: once [customScriptFound] holds, [customScript] either
    renders a custom context or fails on the chain URL; the error of
    its last line does not occur. *)
Theorem X12_selected_custom_flow (h : Handler.t) (hw : client_Discoverer)
    (ip : string) :
  let mac := GetMAC hw (net_ParseIP ip) in
  let chain := IPXEURL (Hardware hw) mac in
  customScriptFound (Some hw) ip = true ->
  (exists c, rendered (run (customScript h (Some hw) ip))
             = [(DataCustom c, CustomScript)]) \/
  (exists err,
     snd (customScript h (Some hw) ip) = Some (Err err) /\
     err <> noCustomData /\ chain <> "" /\
     ((exists e, url_Parse chain = Err e) \/
      (exists u, url_Parse chain = Ok u /\
         Scheme u <> "http" /\ Scheme u <> "https"))).
Proof.
  intros mac chain Hfound. subst mac chain.
  unfold customScript. simpl.
  repeat (select_step; simpl); try absurd_selection.
  all: repeat match goal with
         | E : (_ =? _) = true |- _ => apply String.eqb_eq in E
         | E : (_ =? _) = false |- _ => apply String.eqb_neq in E
         end.
  all: first [ left; eexists; reflexivity
             | right; eexists; split; [reflexivity|];
               split; [unfold noCustomData, errors_Wrap; simpl; discriminate|];
               split; [assumption|];
               first [ left; eexists; reflexivity
                     | right; eexists; repeat split; assumption ] ].
Qed.


Lemma rendered_app (a b : list event) :
  rendered (a ++ b) = rendered a ++ rendered b.
Proof.
  induction a as [|e a IH]; simpl; [reflexivity|].
  destruct e; simpl; rewrite ?IH; reflexivity.
Qed.

(** X13: when the text of the client address parses back to the
    address, whatever an accepted request renders is read from the
    interface whose allow-netboot flag the gate checked. *)
Theorem X13_rendered_for_gated_interface (h : Handler.t) (w : ResponseWriter)
    (r : Request) (host port : string) (hw : client_Discoverer) :
  path_Base (URL_Path r) = "auto.ipxe" ->
  net_SplitHostPort (RemoteAddr r) = Ok (host, port) ->
  Handler.Finder_ByIP h (net_ParseIP host) = Ok (Some hw) ->
  HardwareAllowPXE (Hardware hw) (GetMAC hw (net_ParseIP host)) = true ->
  net_ParseIP (IP_String (net_ParseIP host)) = net_ParseIP host ->
  let mac := GetMAC hw (net_ParseIP host) in
  forall d t,
    In (d, t) (rendered (run (HandlerFunc h w r))) ->
    match d with
    | DataHook k =>
        Hook.HWAddr k = HardwareAddr_String mac /\
        Hook.VLANID k = GetVLANID (Hardware hw) mac /\
        IPXEURL (Hardware hw) mac = "" /\ IPXEScript (Hardware hw) mac = ""
    | DataCustom c =>
        (exists u, Custom.Chain c = Some u /\
           url_Parse (IPXEURL (Hardware hw) mac) = Ok u) \/
        (Custom.Chain c = None /\
         Custom.Script c = IPXEScript (Hardware hw) mac /\
         IPXEURL (Hardware hw) mac = "")
    end.
Proof.
  intros Hbase Hsplit Hfind Hallow Hround mac.
  rewrite (HandlerFunc_served h w r host port hw Hbase Hsplit Hfind Hallow).
  simpl. rewrite rendered_app. simpl. rewrite app_nil_r.
  unfold serveBootScript. rewrite run_bind. simpl.
  unfold dispatch, effectiveName, customScriptFound, defaultScript,
    customScript, bootContext.
  rewrite Hround. fold mac.
  destruct (IPXEURL (Hardware hw) mac =? "") eqn:Hurl; simpl.
  - apply String.eqb_eq in Hurl.
    destruct (IPXEScript (Hardware hw) mac =? "") eqn:Hscript; simpl.
    + apply String.eqb_eq in Hscript.
      destruct (GenerateTemplate _ _); simpl;
        [destruct (Write_err _ _); simpl|];
        intros d t [Hin | []]; injection Hin as <- <-; simpl; auto.
    + destruct (GenerateTemplate _ _); simpl;
        [destruct (Write_err _ _); simpl|];
        intros d t [Hin | []]; injection Hin as <- <-; simpl; auto.
  - destruct (url_Parse (IPXEURL (Hardware hw) mac)) as [u | e] eqn:Hparse;
      simpl; [|intros d t []].
    destruct (negb (Scheme u =? "http") && negb (Scheme u =? "https")); simpl;
      [intros d t []|].
    destruct (GenerateTemplate _ _); simpl;
      [destruct (Write_err _ _); simpl|];
      intros d t [Hin | []]; injection Hin as <- <-; simpl; eauto.
Qed.

(** X14: a response other than 200 comes with exactly one log entry,
    and a response whose body is written without error with none. *)
Theorem X14_failures_logged_once (h : Handler.t) (w : ResponseWriter)
    (r : Request) :
  (forall c, statusCode (run (HandlerFunc h w r)) = Some c ->
     c <> StatusOK ->
     List.length (logs (run (HandlerFunc h w r))) = 1%nat) /\
  (forall s, written (run (HandlerFunc h w r)) = [s] ->
     Write_err w s = None ->
     logs (run (HandlerFunc h w r)) = []).
Proof.
  handler_cases h w r; other_name Hbase;
    (split;
     [ intros code Hcode Hne;
       first [ reflexivity | discriminate Hcode
             | exfalso; injection Hcode as <-; apply Hne; reflexivity ]
     | intros body Hbody Hwrite;
       first [ reflexivity | discriminate Hbody
             | injection Hbody as <-; congruence ] ]).
Qed.


(** X16: the scripts recorded in the span attribute [ipxe-script]
    are the bodies handed to [w.Write]. *)
Theorem X16_traced_script_is_written (h : Handler.t) (w : ResponseWriter)
    (r : Request) :
  tracedScripts (run (HandlerFunc h w r)) = written (run (HandlerFunc h w r)).
Proof. handler_cases h w r; other_name Hbase; reflexivity. Qed.

(** X17: a request rejected before [serveBootScript] leaves the span
    without error status and without script; once [serveBootScript] is
    entered, the span status is set once for every log entry. *)
Theorem X17_span_status (h : Handler.t) (w : ResponseWriter) (r : Request) :
  (selected (run (HandlerFunc h w r)) = [] ->
   spanErrors (run (HandlerFunc h w r)) = [] /\
   tracedScripts (run (HandlerFunc h w r)) = []) /\
  (selected (run (HandlerFunc h w r)) <> [] ->
   List.length (spanErrors (run (HandlerFunc h w r))) =
   List.length (logs (run (HandlerFunc h w r)))).
Proof.
  handler_cases h w r; other_name Hbase;
    (split;
     [ intros Hsel; first [split; reflexivity | discriminate Hsel]
     | intros Hsel; first [reflexivity | exfalso; apply Hsel; reflexivity] ]).
Qed.

End Pipeline.

(** ** Worked scenarios *)

(** A request for another name, from the client of the scenarios. *)
Lemma C4_witness :
  path_Base (URL_Path (Scenario.request "/boot.ipxe" "10.0.0.5:4321"))
    <> "auto.ipxe" /\
  run (HandlerFunc (R := Scenario.renderer)
         (Scenario.handler [Scenario.plain]) Scenario.writer
         (Scenario.request "/boot.ipxe" "10.0.0.5:4321")) =
  [LogInfo "not found" [("path", "/boot.ipxe")]; WriteHeader StatusNotFound].
Proof.
  assert (H : path_Base (URL_Path (Scenario.request "/boot.ipxe" "10.0.0.5:4321"))
              <> "auto.ipxe") by (vm_compute; discriminate).
  split; [exact H|].
  destruct (C4_other_name_not_found (R := Scenario.renderer)
              (Scenario.handler [Scenario.plain]) Scenario.writer
              (Scenario.request "/boot.ipxe" "10.0.0.5:4321") H)
    as [_ [_ [_ [_ Hrun]]]].
  exact Hrun.
Defined.

(** The spec's last scenario: the record forbids netboot and holds both
    a chain URL and a script; the answer is 404. *)
Lemma C1_witness :
  Handler.Finder_ByIP (Scenario.handler [Scenario.denied])
    (net_ParseIP "10.0.0.5") = Ok (Some (Spec.discoverer Scenario.denied)) /\
  IPXEURL (Spec.hardware Scenario.denied) Scenario.theMAC
    = "http://boot.example/x.ipxe" /\
  statusCode
    (run (HandlerFunc (R := Scenario.renderer)
            (Scenario.handler [Scenario.denied]) Scenario.writer
            (Scenario.request "/auto.ipxe" "10.0.0.5:4321")))
    = Some StatusNotFound.
Proof.
  split; [reflexivity | split; [reflexivity|]].
  destruct (C1_gate_not_found (R := Scenario.renderer)
              (Scenario.handler [Scenario.denied]) Scenario.writer
              (Scenario.request "/auto.ipxe" "10.0.0.5:4321")
              "10.0.0.5" "4321" "" (Spec.discoverer Scenario.denied))
    as [Hstatus _].
  - reflexivity.
  - reflexivity.
  - right. split; reflexivity.
  - exact Hstatus.
Defined.

(** A peer address that is no host and port: the answer is 500 and the
    finder is not asked.  A peer address whose host carries a zone: the
    finder is asked about the nil address. *)
Lemma C7_witness :
  (statusCode
     (run (HandlerFunc (R := Scenario.renderer)
             (Scenario.handler [Scenario.plain]) Scenario.writer
             (Scenario.request "/auto.ipxe" "@")))
     = Some StatusInternalServerError /\
   lookups
     (run (HandlerFunc (R := Scenario.renderer)
             (Scenario.handler [Scenario.plain]) Scenario.writer
             (Scenario.request "/auto.ipxe" "@"))) = []) /\
  lookups
    (run (HandlerFunc (R := Scenario.renderer)
            (Scenario.handler [Scenario.plain]) Scenario.writer
            (Scenario.request "/auto.ipxe" "[fe80::1%eth0]:49152")))
    = [net_ParseIP "fe80::1%eth0"].
Proof.
  split.
  - destruct (C7_peer_address (R := Scenario.renderer)
                (Scenario.handler [Scenario.plain]) Scenario.writer
                (Scenario.request "/auto.ipxe" "@")) as [Hbad _].
    + reflexivity.
    + apply (Hbad "address @: missing port in address"). reflexivity.
  - destruct (C7_peer_address (R := Scenario.renderer)
                (Scenario.handler [Scenario.plain]) Scenario.writer
                (Scenario.request "/auto.ipxe" "[fe80::1%eth0]:49152"))
      as [_ Hsplit].
    + reflexivity.
    + destruct (Hsplit "fe80::1%eth0" "49152") as [Hlookup _].
      * reflexivity.
      * exact Hlookup.
Defined.

(** A link-local IPv6 client: the peer address splits, the host with
    its zone is not the text of an IP address, and the handler does
    not answer 500: it asks the finder about the nil address and
    answers 404. *)
Lemma C7_counterexample :
  ~ peerAddressRejected (L := goStd) (R := Scenario.renderer)
      (Scenario.handler [Scenario.plain]) Scenario.writer
      (Scenario.request "/auto.ipxe" "[fe80::1%eth0]:49152").
Proof.
  intros Hclaim.
  destruct Hclaim as [Hstatus _].
  - reflexivity.
  - right. exists "fe80::1%eth0", "49152". split; reflexivity.
  - vm_compute in Hstatus. discriminate Hstatus.
Qed.

(** The run of that request. *)
Example link_local_client_run :
  run (HandlerFunc (R := Scenario.renderer)
         (Scenario.handler [Scenario.plain]) Scenario.writer
         (Scenario.request "/auto.ipxe" "[fe80::1%eth0]:49152")) =
  jobStart ++
  [FinderByIP []; WriteHeader StatusNotFound;
   LogError "no hardware found" "no job found for client address"
     [("client", "[fe80::1%eth0]:49152")]] ++
  jobEnd.
Proof. reflexivity. Qed.


(** The spec's scenario of a chain URL with scheme [ftp], on a record
    that holds a script body as well: the answer is 500. *)
Lemma C3_witness :
  IPXEURL (Spec.hardware (Scenario.chained "ftp://boot.example/x.ipxe" "#!ipxe"))
    Scenario.theMAC <> "" /\
  statusCode
    (run (serveBootScript (R := Scenario.renderer)
            (Scenario.handler []) Scenario.span Scenario.writer
            "auto.ipxe" "10.0.0.5"
            (Some (Spec.discoverer
                     (Scenario.chained "ftp://boot.example/x.ipxe" "#!ipxe")))))
    = Some StatusInternalServerError.
Proof.
  assert (H : IPXEURL
                (Spec.hardware
                   (Scenario.chained "ftp://boot.example/x.ipxe" "#!ipxe"))
                Scenario.theMAC <> "") by (vm_compute; discriminate).
  split; [exact H|].
  destruct (C3_chain_url (R := Scenario.renderer)
              (Scenario.handler []) Scenario.span Scenario.writer
              "auto.ipxe" "10.0.0.5"
              (Spec.discoverer
                 (Scenario.chained "ftp://boot.example/x.ipxe" "#!ipxe")))
    as [_ Hbad].
  - exact H.
  - apply Hbad. right.
    exists {| Scheme := "ftp"; URL_String := "ftp://boot.example/x.ipxe" |}.
    split; [reflexivity | split; discriminate].
Defined.

(** The spec's scenario of the default script: client 10.0.0.5 with MAC
    aa:bb:cc:dd:ee:ff, no architecture and an instance without
    identifier. *)
Lemma C5_witness :
  Hook.Arch
    (bootContext (Scenario.handler [Scenario.plain]) Scenario.span
       (Spec.discoverer Scenario.plain) "10.0.0.5") = "x86_64" /\
  Hook.WorkerID
    (bootContext (Scenario.handler [Scenario.plain]) Scenario.span
       (Spec.discoverer Scenario.plain) "10.0.0.5") = "aa:bb:cc:dd:ee:ff".
Proof.
  pose proof (C5_default_context (R := Scenario.renderer)
                (Scenario.handler [Scenario.plain]) Scenario.span
                (Spec.discoverer Scenario.plain) "10.0.0.5")
    as [_ [_ [Harch [_ Hworker]]]].
  split.
  - apply Harch. reflexivity.
  - rewrite Hworker; [reflexivity|].
    right. exists {| ID := "" |}. split; reflexivity.
Defined.

(** The spec's scenario of the literal script. *)
Lemma C6_witness :
  written
    (run (serveBootScript (R := Scenario.renderer)
            (Scenario.handler [Scenario.scripted]) Scenario.span
            Scenario.writer "auto.ipxe" "10.0.0.5"
            (Some (Spec.discoverer Scenario.scripted))))
  = ["#!ipxe" +++ Scenario.LF +++ "exit"].
Proof.
  destruct (C6_literal_script_verbatim Scenario.renderHook
              ("#!ipxe" +++ Scenario.LF +++ "chain --autofree ") Scenario.LF
              (Scenario.handler [Scenario.scripted]) Scenario.span
              Scenario.writer "auto.ipxe" "10.0.0.5"
              (Spec.discoverer Scenario.scripted)) as [_ [Hbody _]].
  - reflexivity.
  - vm_compute. discriminate.
  - exact Hbody.
Defined.

(** The custom flow entered by name on a record without custom data. *)
Lemma C8_witness :
  statusCode
    (run (serveBootScript (R := Scenario.renderer)
            (Scenario.handler [Scenario.plain]) Scenario.span
            Scenario.writer "custom.ipxe" "10.0.0.5"
            (Some (Spec.discoverer Scenario.plain))))
  = Some StatusInternalServerError.
Proof.
  destruct (C8_no_custom_data (R := Scenario.renderer)
              (Scenario.handler [Scenario.plain]) Scenario.span
              Scenario.writer "10.0.0.5" (Spec.discoverer Scenario.plain))
    as [_ [_ [Hstatus _]]].
  - reflexivity.
  - reflexivity.
  - exact Hstatus.
Defined.


(** The default script of the spec's scenario, as served. *)
Example default_script_run :
  written
    (run (HandlerFunc (R := Scenario.renderer)
            (Scenario.handler [Scenario.plain]) Scenario.writer
            (Scenario.request "/boot/auto.ipxe" "10.0.0.5:4321"))) =
  ["#!ipxe" +++ Scenario.LF +++
   "set arch x86_64" +++ Scenario.LF +++
   "set worker_id aa:bb:cc:dd:ee:ff" +++ Scenario.LF +++
   "set hw_addr aa:bb:cc:dd:ee:ff" +++ Scenario.LF].
Proof. reflexivity. Qed.

(** The arm of [default:] is taken when [serveBootScript] is given
    another name. *)
Example other_name_run :
  statusCode
    (run (serveBootScript (R := Scenario.renderer)
            (Scenario.handler [Scenario.plain]) Scenario.span
            Scenario.writer "install.ipxe" "10.0.0.5"
            (Some (Spec.discoverer Scenario.plain))))
  = Some StatusNotFound.
Proof. reflexivity. Qed.

(** A record without any interface: the resolved MAC matches none, and
    the answer is 404. *)
Example no_interface_run :
  let bare :=
    {| GetMAC := fun _ => Scenario.theMAC;
       Hardware := Spec.hardware
                     {| Spec.interfaces := []; Spec.facilityCode := "lab1";
                        Spec.instance := None |};
       Instance := None |} in
  let h :=
    {| Handler.Finder_ByIP := fun _ => Ok (Some bare);
       Handler.OSIEURL := ""; Handler.ExtraKernelParams := [];
       Handler.PublicSyslogFQDN := ""; Handler.TinkServerTLS := false;
       Handler.TinkServerGRPCAddr := "" |} in
  statusCode
    (run (HandlerFunc (R := Scenario.renderer) h Scenario.writer
            (Scenario.request "/auto.ipxe" "10.0.0.5:4321")))
  = Some StatusNotFound.
Proof. reflexivity. Qed.

(** *** Scenarios of the pipeline *)

(** The request of the spec's first scenario writes a script, and did
    pass the gate. *)
Lemma X2_witness :
  exists host port hw,
    path_Base (URL_Path (Scenario.request "/auto.ipxe" "10.0.0.5:4321"))
      = "auto.ipxe" /\
    net_SplitHostPort
      (RemoteAddr (Scenario.request "/auto.ipxe" "10.0.0.5:4321"))
      = Ok (host, port) /\
    Handler.Finder_ByIP (Scenario.handler [Scenario.plain])
      (net_ParseIP host) = Ok (Some hw) /\
    HardwareAllowPXE (Hardware hw) (GetMAC hw (net_ParseIP host)) = true.
Proof.
  apply (X2_script_only_after_gate (R := Scenario.renderer)
           (Scenario.handler [Scenario.plain]) Scenario.writer
           (Scenario.request "/auto.ipxe" "10.0.0.5:4321")).
  right. right. vm_compute. discriminate.
Defined.

(** The body of that response is what the renderer returned. *)
Lemma X5_witness :
  exists d t s,
    rendered
      (run (HandlerFunc (R := Scenario.renderer)
              (Scenario.handler [Scenario.plain]) Scenario.writer
              (Scenario.request "/auto.ipxe" "10.0.0.5:4321"))) = [(d, t)] /\
    GenerateTemplate (Renderer := Scenario.renderer) d t = Ok s /\
    written
      (run (HandlerFunc (R := Scenario.renderer)
              (Scenario.handler [Scenario.plain]) Scenario.writer
              (Scenario.request "/auto.ipxe" "10.0.0.5:4321"))) = [s] /\
    tracedScripts
      (run (HandlerFunc (R := Scenario.renderer)
              (Scenario.handler [Scenario.plain]) Scenario.writer
              (Scenario.request "/auto.ipxe" "10.0.0.5:4321"))) = [s].
Proof.
  apply (X5_body_is_rendering (R := Scenario.renderer)
           (Scenario.handler [Scenario.plain]) Scenario.writer
           (Scenario.request "/auto.ipxe" "10.0.0.5:4321")).
  reflexivity.
Defined.

(** A default template that does not fit its context: the answer is
    500. *)
Lemma X7_witness :
  statusCode
    (run (HandlerFunc
            (R := Spec.renderer (fun _ => Err "template: no such field") "" "")
            (Scenario.handler [Scenario.plain]) Scenario.writer
            (Scenario.request "/auto.ipxe" "10.0.0.5:4321")))
  = Some StatusInternalServerError.
Proof.
  destruct (X7_render_failure
              (R := Spec.renderer (fun _ => Err "template: no such field") "" "")
              (Scenario.handler [Scenario.plain]) Scenario.writer
              (Scenario.request "/auto.ipxe" "10.0.0.5:4321")
              (DataHook (bootContext (Scenario.handler [Scenario.plain])
                           Scenario.span (Spec.discoverer Scenario.plain)
                           "10.0.0.5"))
              HookScript "template: no such field") as [Hstatus _].
  - reflexivity.
  - reflexivity.
  - exact Hstatus.
Defined.

(** The custom context of the literal script of the spec's scenario. *)
Lemma X9_witness :
  Custom.Chain
    {| Custom.Chain := None;
       Custom.Script := "#!ipxe" +++ Scenario.LF +++ "exit" |} = None /\
  "#!ipxe" +++ Scenario.LF +++ "exit" <> "".
Proof.
  destruct (X9_custom_context_invariant (R := Scenario.renderer)
              (Scenario.handler [Scenario.scripted]) Scenario.span
              Scenario.writer "auto.ipxe" "10.0.0.5"
              (Some (Spec.discoverer Scenario.scripted))
              {| Custom.Chain := None;
                 Custom.Script := "#!ipxe" +++ Scenario.LF +++ "exit" |}
              CustomScript) as [_ [Hchain | Hscript]].
  - left. reflexivity.
  - destruct Hchain as (u & raw & Hu & _). discriminate Hu.
  - exact Hscript.
Defined.

(** A record with a chain URL of scheme [ftp]: selected, and failing
    on the URL. *)
Lemma X12_witness :
  (exists c,
     rendered
       (run (customScript (R := Scenario.renderer) (Scenario.handler [])
               (Some (Spec.discoverer
                        (Scenario.chained "ftp://boot.example/x.ipxe" "")))
               "10.0.0.5")) = [(DataCustom c, CustomScript)]) \/
  (exists err,
     snd (customScript (R := Scenario.renderer) (Scenario.handler [])
            (Some (Spec.discoverer
                     (Scenario.chained "ftp://boot.example/x.ipxe" "")))
            "10.0.0.5") = Some (Err err) /\
     err <> noCustomData /\
     IPXEURL
       (Hardware (Spec.discoverer
                    (Scenario.chained "ftp://boot.example/x.ipxe" "")))
       (GetMAC (Spec.discoverer
                  (Scenario.chained "ftp://boot.example/x.ipxe" ""))
          (net_ParseIP "10.0.0.5")) <> "" /\
     ((exists e,
         url_Parse
           (IPXEURL
              (Hardware (Spec.discoverer
                           (Scenario.chained "ftp://boot.example/x.ipxe" "")))
              (GetMAC (Spec.discoverer
                         (Scenario.chained "ftp://boot.example/x.ipxe" ""))
                 (net_ParseIP "10.0.0.5"))) = Err e) \/
      (exists u,
         url_Parse
           (IPXEURL
              (Hardware (Spec.discoverer
                           (Scenario.chained "ftp://boot.example/x.ipxe" "")))
              (GetMAC (Spec.discoverer
                         (Scenario.chained "ftp://boot.example/x.ipxe" ""))
                 (net_ParseIP "10.0.0.5"))) = Ok u /\
         Scheme u <> "http" /\ Scheme u <> "https"))).
Proof.
  apply (X12_selected_custom_flow (R := Scenario.renderer)
           (Scenario.handler [])
           (Spec.discoverer (Scenario.chained "ftp://boot.example/x.ipxe" ""))
           "10.0.0.5").
  reflexivity.
Defined.

(** The client 10.0.0.5: its address parses back from its text, and
    the default script is rendered for the MAC the gate checked. *)
Lemma X13_witness :
  net_ParseIP (IP_String (net_ParseIP "10.0.0.5")) = net_ParseIP "10.0.0.5" /\
  Hook.HWAddr
    (bootContext (Scenario.handler [Scenario.plain]) Scenario.span
       (Spec.discoverer Scenario.plain) "10.0.0.5")
  = HardwareAddr_String
      (GetMAC (Spec.discoverer Scenario.plain) (net_ParseIP "10.0.0.5")).
Proof.
  split; [reflexivity|].
  pose (r := Scenario.request "/auto.ipxe" "10.0.0.5:4321").
  assert (Hbase : path_Base (URL_Path r) = "auto.ipxe") by reflexivity.
  assert (Hsplit : net_SplitHostPort (RemoteAddr r) = Ok ("10.0.0.5", "4321"))
    by reflexivity.
  assert (Hfind : Handler.Finder_ByIP (Scenario.handler [Scenario.plain])
                    (net_ParseIP "10.0.0.5")
                  = Ok (Some (Spec.discoverer Scenario.plain)))
    by reflexivity.
  assert (Hallow : HardwareAllowPXE (Hardware (Spec.discoverer Scenario.plain))
                     (GetMAC (Spec.discoverer Scenario.plain)
                        (net_ParseIP "10.0.0.5")) = true)
    by reflexivity.
  assert (Hround : net_ParseIP (IP_String (net_ParseIP "10.0.0.5"))
                   = net_ParseIP "10.0.0.5") by reflexivity.
  destruct (X13_rendered_for_gated_interface (R := Scenario.renderer)
              (Scenario.handler [Scenario.plain]) Scenario.writer r
              "10.0.0.5" "4321" (Spec.discoverer Scenario.plain)
              Hbase Hsplit Hfind Hallow Hround
              (DataHook (bootContext (Scenario.handler [Scenario.plain])
                           Scenario.span (Spec.discoverer Scenario.plain)
                           "10.0.0.5"))
              HookScript) as [Haddr _].
  - vm_compute. left. reflexivity.
  - exact Haddr.
Defined.


(** The default script of the spec's first scenario is served as
    rendered. *)
Lemma X18_witness :
  written
    (run (HandlerFunc (R := Scenario.renderer)
            (Scenario.handler [Scenario.plain]) Scenario.writer
            (Scenario.request "/auto.ipxe" "10.0.0.5:4321")))
  = ["#!ipxe" +++ Scenario.LF +++
     "set arch x86_64" +++ Scenario.LF +++
     "set worker_id aa:bb:cc:dd:ee:ff" +++ Scenario.LF +++
     "set hw_addr aa:bb:cc:dd:ee:ff" +++ Scenario.LF].
Proof.
  destruct (X18_render_success (R := Scenario.renderer)
              (Scenario.handler [Scenario.plain]) Scenario.writer
              (Scenario.request "/auto.ipxe" "10.0.0.5:4321")
              (DataHook (bootContext (Scenario.handler [Scenario.plain])
                           Scenario.span (Spec.discoverer Scenario.plain)
                           "10.0.0.5"))
              HookScript
              ("#!ipxe" +++ Scenario.LF +++
               "set arch x86_64" +++ Scenario.LF +++
               "set worker_id aa:bb:cc:dd:ee:ff" +++ Scenario.LF +++
               "set hw_addr aa:bb:cc:dd:ee:ff" +++ Scenario.LF))
    as [_ [_ Hbody]].
  - vm_compute. reflexivity.
  - vm_compute. reflexivity.
  - exact Hbody.
Defined.
